(** * oebb-api: the train matching, status derivation and journey inference
      of [oebb-direct.js] and [demo.js], embedded and verified.

    The embedding follows the JavaScript sources function by function.
    JavaScript strings are modelled by [string], read as sequences of code
    units below 256 (Basic Latin and Latin-1, which covers the labels the
    boards carry, umlauts included).  Numbers are modelled by [option Z]
    with [None] for NaN; the model is exact for integers below 2^53.
    A [Date] is its time value, again [option Z] ([None] = Invalid Date). *)

From Stdlib Require Import ZArith NArith String Ascii List Bool Lia.
From stdpp Require Import base list.
Import ListNotations.

Local Open Scope string_scope.
Local Open Scope Z_scope.

(** ** The platform: strings *)

Module JS.

(** The code units matched by the regular expression class [\s]
    (WhiteSpace and LineTerminator of ECMAScript) below 256. *)
Definition isWhiteSpace (c : ascii) : bool :=
  let n := N_of_ascii c in
  ((n =? 9) || (n =? 10) || (n =? 11) || (n =? 12) || (n =? 13)
   || (n =? 32) || (n =? 160))%N.

(** Unicode lower-casing of one code unit below 256: A-Z and the Latin-1
    capitals U+00C0..U+00DE (the multiplication sign U+00D7 apart) move
    up by 32, everything else is fixed. *)
Definition lowerChar (c : ascii) : ascii :=
  let n := N_of_ascii c in
  if (((65 <=? n) && (n <=? 90))
      || ((192 <=? n) && (n <=? 222) && negb (n =? 215)))%N
  then ascii_of_N (n + 32) else c.

(** [s.toLowerCase()] *)
Fixpoint toLowerCase (s : string) : string :=
  match s with
  | EmptyString => EmptyString
  | String c r => String (lowerChar c) (toLowerCase r)
  end.

(** [s.replace(/\s+/g, '')]: every run of white space is deleted. *)
Fixpoint removeWhitespace (s : string) : string :=
  match s with
  | EmptyString => EmptyString
  | String c r =>
      if isWhiteSpace c then removeWhitespace r
      else String c (removeWhitespace r)
  end.

(** [s.startsWith(p)] *)
Fixpoint startsWith (s p : string) : bool :=
  match p, s with
  | EmptyString, _ => true
  | String _ _, EmptyString => false
  | String a p', String b s' => Ascii.eqb a b && startsWith s' p'
  end.

(** [s.includes(t)]: [t] occurs in [s] as a contiguous substring. *)
Fixpoint includes (s t : string) : bool :=
  startsWith s t ||
  match s with
  | EmptyString => false
  | String _ r => includes r t
  end.

(** [s.split(sep)] for a separator of one code unit. *)
Fixpoint split (sep : ascii) (s : string) : list string :=
  match s with
  | EmptyString => [EmptyString]
  | String c r =>
      if Ascii.eqb c sep then EmptyString :: split sep r
      else match split sep r with
           | h :: t => String c h :: t
           | [] => [String c EmptyString]
           end
  end.

(** Truthiness of a property that is either absent ([undefined]) or a
    string: only a non-empty string is truthy. *)
Definition truthy (o : option string) : bool :=
  match o with
  | Some s => negb (s =? EmptyString)%string
  | None => false
  end.

(** [o || dflt] on such a property. *)
Definition orElse (o : option string) (dflt : string) : string :=
  match o with
  | Some s => if (s =? EmptyString)%string then dflt else s
  | None => dflt
  end.

(** [`${o}`] and [String(o)]: the text a template literal inserts for
    the property, which is also the text [parseInt] reads. *)
Definition tpl (o : option string) : string :=
  match o with
  | Some s => s
  | None => "undefined"
  end.

(** ** The platform: numbers *)

(** Value of a digit in the given radix (10 or 16). *)
Definition digitValue (radix : Z) (c : ascii) : option Z :=
  let n := Z.of_N (N_of_ascii c) in
  if (48 <=? n) && (n <=? 57) then Some (n - 48)
  else if (radix =? 16) && (97 <=? n) && (n <=? 102) then Some (n - 87)
  else if (radix =? 16) && (65 <=? n) && (n <=? 70) then Some (n - 55)
  else None.

(** The longest prefix of digits, read in the radix; [None] when the
    prefix is empty.  [acc] carries the digits read so far. *)
Fixpoint parseDigits (radix : Z) (acc : option Z) (s : string) : option Z :=
  match s with
  | EmptyString => acc
  | String c r =>
      match digitValue radix c with
      | Some d =>
          parseDigits radix
            (Some (match acc with Some a => a * radix + d | None => d end)) r
      | None => acc
      end
  end.

Fixpoint trimStart (s : string) : string :=
  match s with
  | String c r => if isWhiteSpace c then trimStart r else s
  | EmptyString => EmptyString
  end.

(** [parseInt(s)] without a radix: leading white space is skipped, one
    sign is read, [0x]/[0X] switches to radix 16, then the longest
    digit prefix is read; NaN when there is none. *)
Definition parseInt (s : string) : option Z :=
  let s1 := trimStart s in
  let '(sign, s2) :=
    match s1 with
    | String "-" r => (-1, r)
    | String "+" r => (1, r)
    | _ => (1, s1)
    end in
  let '(radix, s3) :=
    match s2 with
    | String "0" (String "x" r) => (16, r)
    | String "0" (String "X" r) => (16, r)
    | _ => (10, s2)
    end in
  match parseDigits radix None s3 with
  | Some n => Some (sign * n)
  | None => None
  end.

(** [a + b] on numbers. *)
Definition add (a b : option Z) : option Z :=
  match a, b with
  | Some x, Some y => Some (x + y)
  | _, _ => None
  end.

(** [a > b] on numbers: false as soon as one side is NaN. *)
Definition gt (a b : option Z) : bool :=
  match a, b with
  | Some x, Some y => y <? x
  | _, _ => false
  end.

End JS.

(** ** The platform: dates *)

(** The local time zone, as ECMAScript's LocalTZA(t, isUTC):
    [offset tz t true] is the offset from UTC, in milliseconds, in force
    at the instant [t]; [offset tz t false] is the offset with which the
    local wall-clock time [t] is read (on a time that a clock change
    repeats or skips, the offset before the change). *)
Record TimeZone : Type := { offset : Z -> bool -> Z }.

(** A zone whose clocks never change. *)
Definition fixedZone (off : Z) : TimeZone := {| offset := fun _ _ => off |}.
Coercion fixedZone : Z >-> TimeZone.

Module JSDate.

Definition msPerSecond : Z := 1000.
Definition msPerMinute : Z := 60000.
Definition msPerHour : Z := 3600000.
Definition msPerDay : Z := 86400000.

Definition Day (t : Z) : Z := t / msPerDay.
Definition HourFromTime (t : Z) : Z := (t / msPerHour) mod 24.
Definition MinFromTime (t : Z) : Z := (t / msPerMinute) mod 60.
Definition SecFromTime (t : Z) : Z := (t / msPerSecond) mod 60.
Definition msFromTime (t : Z) : Z := t mod msPerSecond.

(** A time value further than 8.64e15 ms from the epoch is not a date. *)
Definition TimeClip (t : Z) : option Z :=
  if Z.abs t <=? 8640000000000000 then Some t else None.

Definition MakeTime (hour min sec ms : option Z) : option Z :=
  match hour, min, sec, ms with
  | Some h, Some m, Some s, Some milli =>
      Some (h * msPerHour + m * msPerMinute + s * msPerSecond + milli)
  | _, _, _, _ => None
  end.

Definition MakeDate (day : Z) (time : option Z) : option Z :=
  match time with
  | Some tm => Some (day * msPerDay + tm)
  | None => None
  end.

(** Local wall clock in the time zone [tza]. *)
Section Local.
Variable tza : TimeZone.

Definition LocalTime (t : Z) : Z := t + offset tza t true.
Definition UTC (t : Z) : Z := t - offset tza t false.

(** [d.setHours(hour, min, sec, ms)], giving the new time value. *)
Definition setHours (d : option Z) (hour min sec ms : option Z) : option Z :=
  match d with
  | None => None
  | Some t =>
      match MakeDate (Day (LocalTime t)) (MakeTime hour min sec ms) with
      | Some date => TimeClip (UTC date)
      | None => None
      end
  end.

(** [d.getMinutes()] *)
Definition getMinutes (d : option Z) : option Z :=
  match d with
  | None => None
  | Some t => Some (MinFromTime (LocalTime t))
  end.

(** [d.setMinutes(min)], giving the new time value. *)
Definition setMinutes (d : option Z) (min : option Z) : option Z :=
  match d with
  | None => None
  | Some t =>
      let lt := LocalTime t in
      match MakeDate (Day lt)
              (MakeTime (Some (HourFromTime lt)) min
                        (Some (SecFromTime lt)) (Some (msFromTime lt))) with
      | Some date => TimeClip (UTC date)
      | None => None
      end
  end.
End Local.

End JSDate.

(** ** The platform: promises *)

Inductive JsError : Type :=
  | Error (message : string)
  | TypeError (message : string).

Definition message (e : JsError) : string :=
  match e with
  | Error m => m
  | TypeError m => m
  end.

(** A promise is modelled by the way it settles. *)
Inductive Promise (A : Type) : Type :=
  | Resolved (value : A)
  | Rejected (reason : JsError).
Arguments Resolved {A} value.
Arguments Rejected {A} reason.

(** [p.then(f)] *)
Definition then_ {A B : Type} (p : Promise A) (f : A -> Promise B) : Promise B :=
  match p with
  | Resolved v => f v
  | Rejected e => Rejected e
  end.

(** [p.catch(h)] for a handler that returns a value. *)
Definition catch_ {A : Type} (p : Promise A) (h : JsError -> A) : Promise A :=
  match p with
  | Resolved v => Resolved v
  | Rejected e => Resolved (h e)
  end.

Notation "p >>= f" := (then_ p f) (at level 50, left associativity).

(** [Promise.all]: the input promises settle one after the other, in the
    order [order] lists their indices.  A fulfilment stores the value in
    the slot of the promise's own index and the last one resolves the
    whole with the slots; a rejection rejects the whole at once.  [None]
    is a promise that has not settled (yet). *)
Fixpoint settleAll {A : Type} (ps : list (Promise A)) (order : list nat)
    (values : list (option A)) (remaining : nat)
    : option (Promise (list A)) :=
  match order with
  | [] => None
  | i :: rest =>
      match ps !! i with
      | Some (Resolved v) =>
          let values' := <[i := Some v]> values in
          match remaining with
          | 1%nat =>
              match mapM id values' with
              | Some vs => Some (Resolved vs)
              | None => None
              end
          | _ => settleAll ps rest values' (remaining - 1)
          end
      | Some (Rejected e) => Some (Rejected e)
      | None => settleAll ps rest values remaining
      end
  end.

Definition Promise_all {A : Type} (ps : list (Promise A)) (order : list nat)
    : option (Promise (list A)) :=
  match ps with
  | [] => Some (Resolved [])
  | _ => settleAll ps order (replicate (length ps) None) (length ps)
  end.

(** ** Data model: what the upstream board carries *)

(** The [rt] object of a departure (realtime information). *)
Record Realtime : Type := {
  rt_status : option string;   (* [status]: null or "Ausfall" *)
  dlm : option string;         (* delay in minutes *)
  dlt : option string;         (* actual departure time *)
  dld : option string          (* actual departure date *)
}.

(** One departure of a station board.  A property the payload leaves
    out is [None]; a property it carries is a string, as the upstream
    sends them. *)
Record Departure : Type := {
  pr : option string;          (* train label, "RJ 373" *)
  ti : option string;          (* scheduled time, "20:58" *)
  da : option string;          (* scheduled date, "07.05.2025" *)
  tr : option string;          (* platform *)
  lastStop : option string;
  rt : option Realtime
}.

(** [train.rt && train.rt.f] *)
Definition rtField (f : Realtime -> option string) (train : Departure)
    : option string :=
  match rt train with
  | Some r => f r
  | None => None
  end.

(** A JSON value, as far as the board payload goes: an array is an
    array of departure records, an object that is no array is opaque,
    and a number is given by its integer part (what matters of it is
    whether it is zero). *)
Inductive JsonValue : Type :=
  | JNull
  | JBool (b : bool)
  | JNumber (n : Z)
  | JString (s : string)
  | JObject
  | JList (departures : list Departure).

(** Truthiness of a JSON value. *)
Definition truthyJson (v : JsonValue) : bool :=
  match v with
  | JNull => false
  | JBool b => b
  | JNumber n => negb (n =? 0)
  | JString s => negb (s =? EmptyString)%string
  | JObject => true
  | JList _ => true
  end.

(** The object [JSON.parse] gives for a board payload; [journey] is
    [None] when the object has no such key. *)
Record Payload : Type := {
  journey : option JsonValue
}.

(** What the callback of [request] receives. *)
Record Reply : Type := {
  error : option JsError;
  body : string
}.

(** The object [authenticate] resolves with. *)
Record Auth : Type := {
  accessToken : string;
  channel : option string;
  sessionId : option string;
  supportId : option string;
  cookie : string
}.

(** The object [checkTrainDelay] resolves with. *)
Record DelayInfo : Type := {
  di_train : Departure;
  isDelayed : bool;
  di_delayMinutes : option Z;
  di_scheduledDeparture : string;
  di_actualDeparture : string;
  di_platform : string;
  direction : string;
  di_status : option string;
  canceled : bool
}.

(** The three shapes of object [trackTrainJourney] produces per station. *)
Inductive Checkpoint : Type :=
  | NotFound (stationId : string)
      (* { stationId, found: false, status: 'not_found' } *)
  | Found (stationId : string) (train : Departure) (status : string)
          (scheduledDeparture actualDeparture : string)
          (delayMinutes : option Z) (platform : string) (departed : bool)
      (* { stationId, found: true, train, status, ... , departed } *)
  | Failed (stationId : string) (error : string).
      (* { stationId, found: false, error } *)

Definition stationId (c : Checkpoint) : string :=
  match c with
  | NotFound s => s
  | Found s _ _ _ _ _ _ _ => s
  | Failed s _ => s
  end.

Definition found (c : Checkpoint) : bool :=
  match c with
  | Found _ _ _ _ _ _ _ _ => true
  | _ => false
  end.

(** [station.status]; [None] is [undefined]. *)
Definition status (c : Checkpoint) : option string :=
  match c with
  | NotFound _ => Some "not_found"
  | Found _ _ st _ _ _ _ _ => Some st
  | Failed _ _ => None
  end.

Definition actualDeparture (c : Checkpoint) : option string :=
  match c with
  | Found _ _ _ _ a _ _ _ => Some a
  | _ => None
  end.

Definition departed (c : Checkpoint) : option bool :=
  match c with
  | Found _ _ _ _ _ _ _ d => Some d
  | _ => None
  end.

(** ** [oebb-direct.js] *)

(** The predicate handed to [departures.find] in [checkTrainDelay]. *)
Definition matchesDelay (trainNumber : string) (d : Departure) : bool :=
  let searchPattern := JS.toLowerCase (JS.removeWhitespace trainNumber) in
  let fullName := JS.removeWhitespace (JS.toLowerCase (JS.orElse (pr d) EmptyString)) in
  (fullName =? searchPattern)%string
  || match pr d with Some p => (p =? trainNumber)%string | None => false end
  || (JS.truthy (pr d)
      && JS.includes (JS.toLowerCase (JS.tpl (pr d)))
                     (JS.toLowerCase trainNumber)).

(** The predicate handed to [departures.find] in [trackTrainJourney]. *)
Definition matchesTrack (trainName : string) (d : Departure) : bool :=
  let fullName := JS.removeWhitespace (JS.toLowerCase (JS.orElse (pr d) EmptyString)) in
  (fullName =? JS.removeWhitespace (JS.toLowerCase trainName))%string
  || match pr d with Some p => (p =? trainName)%string | None => false end
  || (JS.truthy (pr d)
      && JS.includes (JS.toLowerCase (JS.tpl (pr d)))
                     (JS.toLowerCase trainName)).

(** The three clauses of the predicate, one by one. *)
Definition clause1 (trainName : string) (d : Departure) : bool :=
  (JS.removeWhitespace (JS.toLowerCase (JS.orElse (pr d) EmptyString))
   =? JS.removeWhitespace (JS.toLowerCase trainName))%string.

Definition clause2 (trainName : string) (d : Departure) : bool :=
  match pr d with Some p => (p =? trainName)%string | None => false end.

Definition clause3 (trainName : string) (d : Departure) : bool :=
  JS.truthy (pr d)
  && JS.includes (JS.toLowerCase (JS.tpl (pr d))) (JS.toLowerCase trainName).

(** The text after the last closing brace cut off: what [.*\}] takes,
    greedily, of the text behind the opening brace. *)
Fixpoint uptoLastBrace (s : string) : option string :=
  match s with
  | EmptyString => None
  | String c r =>
      match uptoLastBrace r with
      | Some t => Some (String c t)
      | None => if Ascii.eqb c "}" then Some (String c EmptyString) else None
      end
  end.

Fixpoint dropPrefix (p s : string) : option string :=
  match p, s with
  | EmptyString, _ => Some s
  | String _ _, EmptyString => None
  | String a p', String b s' => if Ascii.eqb a b then dropPrefix p' s' else None
  end.

(** [/journeysObj\s*=\s*(\{.*\})/s] tried at the start of [s]; the
    result is capture group 1. *)
Definition matchHere (s : string) : option string :=
  match dropPrefix "journeysObj" s with
  | None => None
  | Some r =>
      match JS.trimStart r with
      | String "=" r2 =>
          match JS.trimStart r2 with
          | String "{" r3 =>
              match uptoLastBrace r3 with
              | Some t => Some (String "{" t)
              | None => None
              end
          | _ => None
          end
      | _ => None
      end
  end.

(** [body.match(/journeysObj\s*=\s*(\{.*\})/s)], group 1 of the leftmost
    match; [None] when the expression matches nowhere. *)
Fixpoint matchJourneysObj (s : string) : option string :=
  match matchHere s with
  | Some g => Some g
  | None =>
      match s with
      | EmptyString => None
      | String _ r => matchJourneysObj r
      end
  end.

(** [departures.find(...)] on what [getBoardData] resolved with: an
    array has the method, on any other value the call throws. *)
Definition findOn (departures : JsonValue) : Promise (list Departure) :=
  match departures with
  | JList l => Resolved l
  | _ => Rejected (TypeError "departures.find is not a function")
  end.

Section Client.

(** [JSON.parse] on board payloads; [None] when it throws. *)
Variable JSON_parse : string -> option Payload.

(** The local time zone. *)
Variable LocalTZA : TimeZone.

(** The callback [getBoardData] hands to [request], settling the promise. *)
Definition getBoardData (r : Reply) : Promise JsonValue :=
  match error r with
  | Some e => Rejected e
  | None =>
      let parsed :=
        match matchJourneysObj (body r) with
        | Some json => JSON_parse json
        | None => None  (* throw new Error('Could not extract JSON ...') *)
        end in
      match parsed with
      | None => Rejected (Error "Invalid response format from station board API")
      | Some data =>
          match journey data with
          | None => Rejected (Error "No departures data in response")
          | Some v =>
              if truthyJson v then Resolved v
              else Rejected (Error "No departures data in response")
          end
      end
  end.

(** The object [checkTrainDelay] builds from the record it found. *)
Definition delayInfo (train : Departure) : DelayInfo :=
  let departureTime := JS.orElse (ti train) EmptyString in
  let departureDate := JS.orElse (da train) EmptyString in
  let delay :=
    if JS.truthy (rtField dlm train) then JS.parseInt (JS.tpl (rtField dlm train))
    else Some 0 in
  let actualTime := JS.orElse (rtField dlt train) departureTime in
  let actualDate := JS.orElse (rtField dld train) departureDate in
  let st := if JS.truthy (rtField rt_status train) then rtField rt_status train
            else None in
  {| di_train := train;
     isDelayed := JS.gt delay (Some 0);
     di_delayMinutes := delay;
     di_scheduledDeparture := departureDate ++ " " ++ departureTime;
     di_actualDeparture := actualDate ++ " " ++ actualTime;
     di_platform := JS.orElse (tr train) EmptyString;
     direction := JS.orElse (lastStop train) EmptyString;
     di_status := st;
     canceled := match st with Some s => (s =? "Ausfall")%string | None => false end |}.

(** [checkTrainDelay(stationId, trainNumber)]; [auth] is the way
    [authenticate()] settled and [r] the reply to the board request. *)
Definition checkTrainDelay (auth : Promise Auth) (r : Reply)
    (stationId trainNumber : string) : Promise DelayInfo :=
  auth >>= fun _ =>
  getBoardData r >>= findOn >>= fun departures =>
  match find (matchesDelay trainNumber) departures with
  | None =>
      Rejected (Error ("Train " ++ trainNumber ++ " not found at station "
                       ++ stationId))
  | Some train => Resolved (delayInfo train)
  end.

(** The instant [scheduledDate] holds after [setHours]: the day of the
    clock read [today], at the hour and minute of [train.ti]. *)
Definition scheduledInstant (today : Z) (t : string) : option Z :=
  let scheduledTime := JS.split ":" t in
  let scheduledHour := JS.parseInt (JS.tpl (scheduledTime !! 0%nat)) in
  let scheduledMinute := JS.parseInt (JS.tpl (scheduledTime !! 1%nat)) in
  JSDate.setHours LocalTZA (Some today) scheduledHour scheduledMinute
                  (Some 0) (Some 0).

(** The instant [actualDepartureDate] holds after [setMinutes]. *)
Definition actualInstant (scheduled delayMinutes : option Z) : option Z :=
  JSDate.setMinutes LocalTZA scheduled
    (JS.add (JSDate.getMinutes LocalTZA scheduled) delayMinutes).

(** The handler [trackTrainJourney] chains to the board of one station.
    [now] and [today] are the two clock reads ([new Date()]) it makes,
    in this order. *)
Definition checkStation (trainName stationId : string) (now today : Z)
    (departures : list Departure) : Promise Checkpoint :=
  match find (matchesTrack trainName) departures with
  | None => Resolved (NotFound stationId)
  | Some train =>
      match ti train with
      | None =>
          Rejected (TypeError
            "Cannot read properties of undefined (reading 'split')")
      | Some t =>
          let scheduledDate := scheduledInstant today t in
          let hasDelay := JS.truthy (rtField dlm train) in
          let delayMinutes :=
            if hasDelay then JS.parseInt (JS.tpl (rtField dlm train))
            else Some 0 in
          let actualDepartureDate := actualInstant scheduledDate delayMinutes in
          let status :=
            if JS.gt (Some now) actualDepartureDate then "departed"
            else if hasDelay then "delayed"
            else "scheduled" in
          Resolved (Found stationId train status
            (JS.tpl (da train) ++ " " ++ JS.tpl (ti train))
            (if hasDelay
             then JS.tpl (rtField dld train) ++ " " ++ JS.tpl (rtField dlt train)
             else JS.tpl (da train) ++ " " ++ JS.tpl (ti train))
            delayMinutes
            (JS.orElse (tr train) "N/A")
            (JS.gt (Some now) actualDepartureDate))
      end
  end.

(** What the lookup of one station observes: the reply to its board
    request and the two clock reads of its handler. *)
Record Lookup : Type := {
  reply : Reply;
  now : Z;
  today : Z
}.

(** One element of [stationPromises]. *)
Definition stationPromise (trainName stationId : string) (l : Lookup)
    : Promise Checkpoint :=
  catch_ (getBoardData (reply l) >>= findOn
          >>= checkStation trainName stationId (now l) (today l))
         (fun e => Failed stationId (message e)).

(** [trackTrainJourney(trainName, stationIds)].  [lookups i] is what the
    lookup of the [i]-th station observes, [order] the order in which
    the station promises settle. *)
Definition trackTrainJourney (auth : Promise Auth) (lookups : nat -> Lookup)
    (order : list nat) (trainName : string) (stationIds : list string)
    : option (Promise (list Checkpoint)) :=
  match auth with
  | Rejected e => Some (Rejected e)
  | Resolved _ =>
      let stationPromises :=
        imap (fun i stationId => stationPromise trainName stationId (lookups i))
             stationIds in
      Promise_all stationPromises order
  end.

End Client.

(** ** [demo.js], the [track] command *)

(** [{ stationId, time }] *)
Record Marker : Type := {
  m_stationId : string;
  m_time : option string
}.

Definition marker (station : Checkpoint) : Marker :=
  {| m_stationId := stationId station; m_time := actualDeparture station |}.

(** [station.status === s] *)
Definition statusIs (station : Checkpoint) (s : string) : bool :=
  match status station with
  | Some x => (x =? s)%string
  | None => false
  end.

(** The body of [results.forEach], acting on [(lastDeparted, nextArrival)]. *)
Definition visit (st : option Marker * option Marker) (station : Checkpoint)
    : option Marker * option Marker :=
  let '(lastDeparted, nextArrival) := st in
  if found station then
    if statusIs station "departed" then (Some (marker station), nextArrival)
    else if statusIs station "scheduled" || statusIs station "delayed" then
      match nextArrival with
      | None => (lastDeparted, Some (marker station))
      | Some _ => (lastDeparted, nextArrival)
      end
    else (lastDeparted, nextArrival)
  else (lastDeparted, nextArrival).

(** [(lastDeparted, nextArrival)] once the loop is over. *)
Definition inferJourney (results : list Checkpoint)
    : option Marker * option Marker :=
  fold_left visit results (None, None).

(** The four branches of the report under "Current status". *)
Inductive Location : Type :=
  | Between (lastDeparted nextArrival : Marker)
  | DepartedAll (lastDeparted : Marker)
  | NotYetDeparted (nextArrival : Marker)
  | Undetermined.

Definition currentStatus (results : list Checkpoint) : Location :=
  match inferJourney results with
  | (Some l, Some n) => Between l n
  | (Some l, None) => DepartedAll l
  | (None, Some n) => NotYetDeparted n
  | (None, None) => Undetermined
  end.

(** ** The specification's wording, for comparison with the code *)

Definition isDeparted (c : Checkpoint) : bool := statusIs c "departed".

Definition isUpcoming (c : Checkpoint) : bool :=
  statusIs c "scheduled" || statusIs c "delayed".

(** The checkpoints behind the rightmost departed one (all of them when
    none is departed). *)
Fixpoint spec_afterLastDeparted (l : list Checkpoint) : list Checkpoint :=
  match l with
  | [] => []
  | c :: r =>
      if existsb isDeparted r then spec_afterLastDeparted r
      else if isDeparted c then r
      else c :: r
  end.

(** "nextArrival = leftmost checkpoint, after lastDeparted's position,
    with status scheduled or delayed." *)
Definition spec_nextArrival (results : list Checkpoint) : option Marker :=
  marker <$> head (List.filter isUpcoming
                                  (spec_afterLastDeparted results)).

(** "First match wins, in this precedence": clause 1 over the whole
    list, then clause 2, then clause 3. *)
Definition spec_findTrain (trainName : string) (departures : list Departure)
    : option Departure :=
  match find (clause1 trainName) departures with
  | Some d => Some d
  | None =>
      match find (clause2 trainName) departures with
      | Some d => Some d
      | None => find (clause3 trainName) departures
      end
  end.

(** Days from 1970-01-01 to the given day of the civil calendar. *)
Definition daysFromCivil (y m d : Z) : Z :=
  let y' := if m <=? 2 then y - 1 else y in
  let era := y' / 400 in
  let yoe := y' - era * 400 in
  let doy := (153 * (if 2 <? m then m - 3 else m + 9) + 2) / 5 + d - 1 in
  let doe := yoe * 365 + yoe / 4 - yoe / 100 + doy in
  era * 146097 + doe - 719468.

(** "scheduled = combine(scheduledDate, scheduledTime) (local, no
    timezone conversion)": the instant at which the local wall clock
    shows the date [DD.MM.YYYY] and the time [HH:MM]. *)
Definition spec_combine (tza : Z) (date time : string) : option Z :=
  match JS.parseInt <$> JS.split "." date, JS.parseInt <$> JS.split ":" time with
  | [Some d; Some m; Some y], [Some hh; Some mm] =>
      Some (daysFromCivil y m d * JSDate.msPerDay
            + hh * JSDate.msPerHour + mm * JSDate.msPerMinute - tza)
  | _, _ => None
  end.

(** ** Derived notions used by the statements *)

(** No clock change between the instant [s] and the wall-clock time
    [d] minutes behind it: that wall-clock time is read with the offset
    in force at [s]. *)
Definition steadyOffset (tza : TimeZone) (s d : Z) : Prop :=
  offset tza (s + offset tza s true + d * 60000) false = offset tza s true.

(** The wall-clock time "the day of the clock read [today], at [hh]:[mm]",
    as a local time value. *)
Definition wallClockToday (tza : TimeZone) (today hh mm : Z) : Z :=
  JSDate.Day (JSDate.LocalTime tza today) * JSDate.msPerDay
  + hh * JSDate.msPerHour + mm * JSDate.msPerMinute.

(** A record satisfies at least one clause of the matching rule. *)
Definition anyClause (trainName : string) (d : Departure) : bool :=
  clause1 trainName d || clause2 trainName d || clause3 trainName d.

(** [status] of the checkpoint a handler run resolved with. *)
Definition statusOf (p : Promise Checkpoint) : option string :=
  match p with
  | Resolved c => status c
  | Rejected _ => None
  end.

Definition delayMinutes (c : Checkpoint) : option (option Z) :=
  match c with
  | Found _ _ _ _ _ d _ _ => Some d
  | _ => None
  end.

(** The record with another [da]. *)
Definition withDate (date : option string) (d : Departure) : Departure :=
  {| pr := pr d; ti := ti d; da := date; tr := tr d;
     lastStop := lastStop d; rt := rt d |}.

(** White space only. *)
Fixpoint allWhiteSpace (s : string) : bool :=
  match s with
  | EmptyString => true
  | String c r => JS.isWhiteSpace c && allWhiteSpace r
  end.

Fixpoint hasClosingBrace (s : string) : bool :=
  match s with
  | EmptyString => false
  | String c r => Ascii.eqb c "}" || hasClosingBrace r
  end.

(** The payload carries the marker: the word [journeysObj], an equals
    sign and a brace-delimited text, with optional white space around
    the equals sign. *)
Definition markerPresent (payload : string) : Prop :=
  exists pre ws1 ws2 mid post,
    allWhiteSpace ws1 = true /\ allWhiteSpace ws2 = true
    /\ payload = pre ++ "journeysObj" ++ ws1 ++ "=" ++ ws2
                     ++ "{" ++ mid ++ "}" ++ post.

(** [json] is the brace-delimited text of a marker of the payload, taken
    up to the last closing brace of the payload. *)
Definition markerText (payload json : string) : Prop :=
  exists pre ws1 ws2 mid post,
    allWhiteSpace ws1 = true /\ allWhiteSpace ws2 = true
    /\ hasClosingBrace post = false
    /\ payload = pre ++ "journeysObj" ++ ws1 ++ "=" ++ ws2
                     ++ "{" ++ mid ++ "}" ++ post
    /\ json = "{" ++ mid ++ "}".

(** ** Concrete boards and clocks used by the examples *)

Definition board_record (label time date : string) (r : option Realtime)
    : Departure :=
  {| pr := Some label; ti := Some time; da := Some date;
     tr := Some "7A-B"; lastStop := Some "Graz Hbf"; rt := r |}.

Definition realtime_delay (minutes time date : string) : option Realtime :=
  Some {| rt_status := None; dlm := Some minutes;
          dlt := Some time; dld := Some date |}.

Definition rj840 : Departure := board_record "RJ 840" "20:58" "07.05.2025" None.
Definition rj84 : Departure := board_record "RJ 84" "21:10" "07.05.2025" None.

(** Central European Summer Time, two hours ahead of UTC. *)
Definition CEST : Z := 7200000.

(** 07.05.2025 12:00 and 23:59 on the local wall clock of [CEST]. *)
Definition noon_7_May : Z := 20215 * 86400000 + 12 * 3600000 - CEST.
Definition late_7_May : Z := 20215 * 86400000 + 23 * 3600000 + 59 * 60000 - CEST.

(** A parser that answers every text with the same board. *)
Definition parse_as (departures : option (list Departure))
    : string -> option Payload :=
  fun _ => Some {| journey := JList <$> departures |}.

(** A parser that answers every text with the given [journey] value. *)
Definition parse_journey (v : JsonValue) : string -> option Payload :=
  fun _ => Some {| journey := Some v |}.

Definition some_auth : Auth :=
  {| accessToken := "token"; channel := Some "inet"; sessionId := None;
     supportId := None; cookie := "mock-cookie-value" |}.

Definition ok_reply : Reply := {| error := None; body := "journeysObj = {}" |}.

(** "RJ 84" at 21:10 with the delay field "0", and with "10". *)
Definition rj84_zero : Departure :=
  board_record "RJ 84" "21:10" "07.05.2025"
               (realtime_delay "0" "21:10" "07.05.2025").

Definition rj84_late10 : Departure :=
  board_record "RJ 84" "21:10" "07.05.2025"
               (realtime_delay "10" "21:20" "07.05.2025").

(** Departures of the next day, as a late board shows them. *)
Definition rj_midnight : Departure :=
  board_record "RJ 84" "00:00" "08.05.2025" None.

Definition rj_tomorrow : Departure :=
  board_record "RJ 84" "10:00" "08.05.2025" None.

(** 07.05.2025 21:10 on the local wall clock of [CEST]. *)
Definition sched_2110 : Z := 20215 * 86400000 + 21 * 3600000 + 10 * 60000 - CEST.

Definition failing_reply : Reply :=
  {| error := Some (Error "ETIMEDOUT"); body := EmptyString |}.

Definition stationIds_ex : list string := ["1290401"; "8100008"; "8100013"].

(** Three lookups at noon; the one of the second station fails. *)
Definition lookups_ex (i : nat) : Lookup :=
  {| reply := if Nat.eqb i 1 then failing_reply else ok_reply;
     now := noon_7_May; today := noon_7_May |}.

Definition cps_ex : list Checkpoint :=
  Eval vm_compute in
    match trackTrainJourney (parse_as (Some [rj840; rj84])) CEST
            (Resolved some_auth) lookups_ex [2; 0; 1]%nat "RJ 84" stationIds_ex with
    | Some (Resolved cps) => cps
    | _ => []
    end.

Definition cp_A_scheduled : Checkpoint :=
  Found "A" rj84 "scheduled" "07.05.2025 21:10" "07.05.2025 21:10"
        (Some 0) "7A-B" false.

Definition cp_B_departed : Checkpoint :=
  Found "B" rj84 "departed" "07.05.2025 10:00" "07.05.2025 10:00"
        (Some 0) "7A-B" true.

(** ** The platform, continued *)

Module JS2.

(** [a.join(sep)] on an array of strings. *)
Fixpoint join (sep : string) (a : list string) : string :=
  match a with
  | [] => EmptyString
  | [x] => x
  | x :: rest => x ++ sep ++ join sep rest
  end.

(** The decimal digits of a positive integer, most significant first,
    placed before [acc]; [fuel] bounds the number of digits. *)
Fixpoint digits (fuel : nat) (n : Z) (acc : string) : string :=
  match fuel with
  | O => acc
  | S f =>
      let acc' := String (ascii_of_N (48 + Z.to_N (n mod 10))) acc in
      if n / 10 =? 0 then acc' else digits f (n / 10) acc'
  end.

(** [n.toString()] for an integer [n]. *)
Definition numToString (n : Z) : string :=
  if n <? 0 then String "-" (digits (S (Z.to_nat (Z.log2 (- n)))) (- n) EmptyString)
  else digits (S (Z.to_nat (Z.log2 n))) n EmptyString.

(** A string of [n] copies of one code unit. *)
Fixpoint repeatChar (n : nat) (c : ascii) : string :=
  match n with
  | O => EmptyString
  | S k => String c (repeatChar k c)
  end.

(** [s.padStart(targetLength, c)] for a pad string of one code unit. *)
Definition padStart (targetLength : nat) (c : ascii) (s : string) : string :=
  repeatChar (targetLength - String.length s) c ++ s.

(** [a || b] where both sides are properties that may be absent; the
    result is the right operand when the left one is falsy. *)
Definition orOpt (a b : option string) : option string :=
  if JS.truthy a then a else b.

End JS2.

(** ** [oebb-direct.js], continued *)

(** The body of the reply to the [init] request, parsed as JSON. *)
Record AuthBody : Type := {
  ab_accessToken : option string;
  ab_channel : option string;
  ab_sessionId : option string;
  ab_supportId : option string
}.

(** What the callback of the [init] request receives; a body that is
    missing or falsy is [None]. *)
Record AuthReply : Type := {
  ar_error : option JsError;
  ar_body : option AuthBody
}.

(** The callback [authenticate] hands to [request], settling the promise. *)
Definition authenticate (r : AuthReply) : Promise Auth :=
  match ar_error r with
  | Some e => Rejected e
  | None =>
      match ar_body r with
      | None => Rejected (Error "No body in auth response")
      | Some b =>
          if JS.truthy (ab_accessToken b)
             && negb (JS.tpl (ab_accessToken b) =? EmptyString)%string
          then Resolved {| accessToken := JS.tpl (ab_accessToken b);
                           channel := ab_channel b;
                           sessionId := ab_sessionId b;
                           supportId := ab_supportId b;
                           cookie := "mock-cookie-value" |}
          else Rejected (Error "No access token in response")
      end
  end.

(** A station object of the stations endpoint ([number], [longitude],
    [latitude], [name], [meta]). *)
Record Station : Type := {
  st_number : option string;
  st_longitude : option Z;
  st_latitude : option Z;
  st_name : option string;
  st_meta : option string
}.

(** What the callback of the stations request receives; a body that is
    missing or falsy is [None]. *)
Record StationsReply : Type := {
  sr_error : option JsError;
  sr_body : option (list Station)
}.

(** The headers [getStations] sends. *)
Definition stationsHeaders (auth : Auth) : list (string * string) :=
  [("cookie", "ts-cookie=" ++ cookie auth);
   ("Channel", JS.tpl (channel auth));
   ("AccessToken", accessToken auth);
   ("SessionId", JS.tpl (sessionId auth));
   ("x-ts-supportid", "WEB_" ++ JS.tpl (supportId auth))].

(** The callback [getStations] hands to [request]. *)
Definition getStations (r : StationsReply) : Promise (list Station) :=
  match sr_error r with
  | Some e => Rejected e
  | None =>
      match sr_body r with
      | None => Rejected (Error "No body in stations response")
      | Some stations => Resolved stations
      end
  end.

(** [searchStations(name, count)]: [name] and [count] only go into the
    query string of the request; [auth] is the way [authenticate()]
    settled and [r] the reply to the stations request. *)
Definition searchStations (auth : Promise Auth) (r : StationsReply)
    (name : string) (count : Z) : Promise (list Station) :=
  auth >>= fun _ => getStations r.

(** [getTrainDepartures(stationId, date)] *)
Definition getTrainDepartures (JSON_parse : string -> option Payload)
    (auth : Promise Auth) (r : Reply) : Promise JsonValue :=
  auth >>= fun _ => getBoardData JSON_parse r.

(** The [time] parameter [getBoardData] puts into the query string:
    hours and minutes of [date] on the local wall clock, two digits
    each. *)
Definition formattedTime (tza : TimeZone) (date : Z) : string :=
  JS2.padStart 2 "0"
    (JS2.numToString (JSDate.HourFromTime (JSDate.LocalTime tza date)))
  ++ ":"
  ++ JS2.padStart 2 "0"
       (JS2.numToString (JSDate.MinFromTime (JSDate.LocalTime tza date))).

(** What [searchAndDisplayStations] writes: [console.log] lines and the
    [console.error] call. *)
Inductive LogEntry : Type :=
  | Log (line : string)
  | LogError (label : string) (e : JsError).

Definition doubleQuote : string := String (ascii_of_nat 34) EmptyString.

(** The line printed per station. *)
Definition stationLine (station : Station) : string :=
  "- " ++ JS.tpl (JS2.orOpt (st_meta station) (st_name station))
  ++ " (ID: " ++ JS.tpl (st_number station) ++ ")".

(** [searchAndDisplayStations(stationName)]: what it writes and how it
    settles. *)
Definition searchAndDisplayStations (auth : Promise Auth) (r : StationsReply)
    (stationName : string) : list LogEntry * Promise (list Station) :=
  match searchStations auth r stationName 15 with
  | Resolved stations =>
      (Log ("Found " ++ JS2.numToString (Z.of_nat (length stations))
            ++ " stations matching " ++ doubleQuote ++ stationName
            ++ doubleQuote ++ ":")
       :: map (fun station => Log (stationLine station)) stations,
       Resolved stations)
  | Rejected e =>
      ([LogError "Error searching for stations:" e], Rejected e)
  end.

(** ** [demo.js], continued *)

(** What the script goes on to do after reading its arguments. *)
Inductive Action : Type :=
  | RunSearch (stationName : string)
  | RunDepartures (stationId : string)
  | RunDelay (stationId trainNumber : string)
  | RunTrack (trainName : string) (stationIds : list string)
  | ExitWith (message : string)     (* console.error, process.exit(1) *)
  | PrintUsage.

(** The [switch] over [process.argv]. *)
Definition demo (argv : list string) : Action :=
  let command := JS.orElse (argv !! 2%nat) "search" in
  let arg1 := JS.orElse (argv !! 3%nat) "Wien" in
  let arg2 := argv !! 4%nat in
  if (command =? "search")%string then RunSearch arg1
  else if (command =? "departures")%string then RunDepartures arg1
  else if (command =? "delay")%string then
    if negb (JS.truthy arg2)
    then ExitWith
      "Missing train number! Usage: node demo.js delay [stationId] [trainNumber]"
    else RunDelay arg1 (JS.tpl arg2)
  else if (command =? "track")%string then
    if negb (JS.truthy (Some arg1))
    then ExitWith
      "Missing train number! Usage: node demo.js track [trainNumber] [stationId1,stationId2,...]"
    else if negb (JS.truthy arg2)
    then ExitWith
      "Missing station IDs! Usage: node demo.js track [trainNumber] [stationId1,stationId2,...]"
    else RunTrack arg1 (JS.split "," (JS.tpl arg2))
  else PrintUsage.

(** The line the [departures] command prints per train. *)
Definition departureLine (train : Departure) : string :=
  let hasDelay := JS.truthy (rtField dlm train) in
  let delayInfo :=
    if hasDelay then " (DELAYED by " ++ JS.tpl (rtField dlm train) ++ " min)"
    else " (on time)" in
  let destination := JS.orElse (lastStop train) "Unknown" in
  "- " ++ JS.orElse (pr train) "Unknown" ++ " to " ++ destination ++ ": "
  ++ JS.tpl (ti train) ++ delayInfo ++ " - Platform: "
  ++ JS.orElse (tr train) "N/A".

(** The three headlines of the [delay] command. *)
Inductive DelayHeadline : Type :=
  | IsCanceled
  | IsDelayedBy (minutes : option Z)
  | IsOnTime.

Definition delayHeadline (result : DelayInfo) : DelayHeadline :=
  if canceled result then IsCanceled
  else if isDelayed result then IsDelayedBy (di_delayMinutes result)
  else IsOnTime.

(** [station.train] *)
Definition train (c : Checkpoint) : option Departure :=
  match c with
  | Found _ t _ _ _ _ _ _ => Some t
  | _ => None
  end.

(** Two digits, as the board request formats hours and minutes. *)
Definition pad2 (n : Z) : string := JS2.padStart 2 "0" (JS2.numToString n).

(** The number of occurrences of a code unit. *)
Fixpoint countChar (c : ascii) (s : string) : nat :=
  match s with
  | EmptyString => 0
  | String a r => (if Ascii.eqb a c then 1 else 0) + countChar c r
  end.

(** A departure whose time carries no colon. *)
Definition rj84_no_colon : Departure :=
  board_record "RJ 84" "2110" "07.05.2025" None.

(** A departure of the morning, and one running two minutes early. *)
Definition rj84_morning : Departure :=
  board_record "RJ 84" "10:00" "07.05.2025" None.

Definition rj84_early : Departure :=
  board_record "RJ 84" "21:10" "07.05.2025"
               (realtime_delay "-2" "21:08" "07.05.2025").

(** A departure without time. *)
Definition rj84_no_time : Departure :=
  {| pr := Some "RJ 84"; ti := None; da := Some "07.05.2025";
     tr := None; lastStop := None; rt := None |}.

(** Central European Time, and the zone of Vienna in 2025: summer time
    from 30.03.2025 01:00 UTC to 26.10.2025 01:00 UTC.  A wall-clock
    time that the change skips (30.03., 02:00 to 03:00) or repeats
    (26.10., 02:00 to 03:00) is read with the offset before the change. *)
Definition CET : Z := 3600000.
Definition spring_2025 : Z := daysFromCivil 2025 3 30 * 86400000 + 3600000.
Definition fall_2025 : Z := daysFromCivil 2025 10 26 * 86400000 + 3600000.

Definition Vienna2025 : TimeZone :=
  {| offset := fun t isUTC =>
       if isUTC
       then if (spring_2025 <=? t) && (t <? fall_2025) then CEST else CET
       else if (spring_2025 + CET + 3600000 <=? t) && (t <? fall_2025 + CEST)
            then CEST else CET |}.

(** 26.10.2025 00:30 on the wall clock of Vienna, and a departure at
    02:55 of that night with ten minutes of delay. *)
Definition night_26_Oct : Z :=
  daysFromCivil 2025 10 26 * 86400000 + 30 * 60000 - CEST.

Definition rj84_night : Departure :=
  board_record "RJ 84" "02:55" "26.10.2025"
               (realtime_delay "10" "03:05" "26.10.2025").

(** ** Properties *)

(** *** Strings *)

Lemma lowerChar_isWhiteSpace (c : ascii) :
  JS.isWhiteSpace (JS.lowerChar c) = JS.isWhiteSpace c.
Proof. destruct c as [[] [] [] [] [] [] [] []]; reflexivity. Qed.

(** Lower-casing and deleting white space commute, so the two orders in
    which the sources apply them to the query label agree. *)
Lemma toLowerCase_removeWhitespace (s : string) :
  JS.toLowerCase (JS.removeWhitespace s) = JS.removeWhitespace (JS.toLowerCase s).
Proof.
  induction s as [|c s IH]; simpl; [reflexivity|].
  rewrite lowerChar_isWhiteSpace.
  destruct (JS.isWhiteSpace c); simpl; now rewrite IH.
Qed.

(** *** [Array.prototype.find] *)

Lemma find_first {A : Type} (f : A -> bool) (l : list A) (x : A) :
  find f l = Some x ->
  exists before after,
    l = (before ++ x :: after)%list /\ f x = true /\
    forall y, In y before -> f y = false.
Proof.
  induction l as [|a l IH]; simpl; [discriminate|].
  destruct (f a) eqn:Fa.
  - intros [= ->]. exists [], l. repeat split; [assumption|]. intros y [].
  - intros H. destruct (IH H) as (before & after & -> & Fx & Hb).
    exists (a :: before), after. repeat split; [assumption|].
    intros y [<-|Hy]; auto.
Qed.

Lemma find_at_first {A : Type} (f : A -> bool) (before after : list A) (x : A) :
  f x = true -> (forall y, In y before -> f y = false) ->
  find f (before ++ x :: after)%list = Some x.
Proof.
  intros Fx. induction before as [|a before IH]; simpl; intros Hb.
  - now rewrite Fx.
  - rewrite (Hb a) by now left. apply IH. intros y Hy. apply Hb. now right.
Qed.

Lemma find_none_iff {A : Type} (f : A -> bool) (l : list A) :
  find f l = None <-> forall y, In y l -> f y = false.
Proof.
  split; [apply find_none|].
  induction l as [|a l IH]; simpl; intros H; [reflexivity|].
  rewrite (H a) by now left. apply IH. intros y Hy. apply H. now right.
Qed.

(** *** The matching rule *)

Lemma matchesTrack_clauses (trainName : string) (d : Departure) :
  matchesTrack trainName d = anyClause trainName d.
Proof. reflexivity. Qed.

Lemma matchesDelay_clauses (trainNumber : string) (d : Departure) :
  matchesDelay trainNumber d = anyClause trainNumber d.
Proof.
  unfold matchesDelay, anyClause, clause1, clause2, clause3.
  now rewrite toLowerCase_removeWhitespace.
Qed.

Lemma matchesDelay_ext (trainNumber : string) (l : list Departure) :
  find (matchesDelay trainNumber) l = find (anyClause trainNumber) l.
Proof.
  induction l as [|a l IH]; simpl; [reflexivity|].
  now rewrite matchesDelay_clauses, IH.
Qed.

(** C2, as the code has it: on every board and for every query label,
    both lookups ([trackTrainJourney] and [checkTrainDelay]) return the
    first record, in board order, that satisfies at least one of the
    three clauses; which clause it satisfies plays no role.  No record
    is returned exactly when no record satisfies any clause. *)
Theorem find_returns_first_record_matching_any_clause
    (trainName : string) (departures : list Departure) :
  find (matchesDelay trainName) departures
    = find (matchesTrack trainName) departures
  /\ (find (matchesTrack trainName) departures = None <->
      forall d, In d departures ->
        clause1 trainName d = false /\ clause2 trainName d = false
        /\ clause3 trainName d = false)
  /\ (forall d, find (matchesTrack trainName) departures = Some d <->
      exists before after,
        departures = (before ++ d :: after)%list
        /\ (clause1 trainName d = true \/ clause2 trainName d = true
            \/ clause3 trainName d = true)
        /\ forall x, In x before ->
             clause1 trainName x = false /\ clause2 trainName x = false
             /\ clause3 trainName x = false).
Proof.
  assert (Hany : forall x, anyClause trainName x = false <->
            clause1 trainName x = false /\ clause2 trainName x = false
            /\ clause3 trainName x = false).
  { intros x. unfold anyClause. rewrite !orb_false_iff. tauto. }
  split; [apply matchesDelay_ext|]. split.
  - change (matchesTrack trainName) with (anyClause trainName).
    rewrite find_none_iff. split; intros H d Hd; apply Hany; auto.
  - intros d. change (matchesTrack trainName) with (anyClause trainName). split.
    + intros H. destruct (find_first _ _ _ H) as (b & a & -> & Fd & Hb).
      exists b, a. split; [reflexivity|]. split.
      * unfold anyClause in Fd. rewrite !orb_true_iff in Fd. tauto.
      * intros y Hy. apply Hany; auto.
    + intros (b & a & -> & Fd & Hb). apply find_at_first.
      * unfold anyClause. rewrite !orb_true_iff. tauto.
      * intros y Hy. apply Hany. auto.
Qed.

(** C2, counterexample: on the board [RJ 840; RJ 84] the query "RJ 84"
    returns the first record, which satisfies clause 3 only, although
    the second record satisfies clause 1. *)
Lemma find_ignores_clause_precedence :
  clause1 "RJ 84" rj840 = false /\ clause2 "RJ 84" rj840 = false
  /\ clause3 "RJ 84" rj840 = true /\ clause1 "RJ 84" rj84 = true
  /\ find (matchesTrack "RJ 84") [rj840; rj84] = Some rj840
  /\ find (matchesDelay "RJ 84") [rj840; rj84] = Some rj840
  /\ spec_findTrain "RJ 84" [rj840; rj84] = Some rj84
  /\ find (matchesTrack "RJ 84") [rj840; rj84]
     <> spec_findTrain "RJ 84" [rj840; rj84].
Proof. repeat split; try reflexivity. intros [=]. Qed.

(** *** [checkTrainDelay] *)

(** C8: once the board of the station is there, [checkTrainDelay] fails
    with the not-found error exactly when no record of the board matches
    the train label, it fails in no other way, and when some record
    matches it resolves with the information of the first one. *)
Theorem checkTrainDelay_not_found_iff_no_match
    (JSON_parse : string -> option Payload) (a : Auth) (r : Reply)
    (departures : list Departure) (station trainNumber : string) :
  getBoardData JSON_parse r = Resolved (JList departures) ->
  let result := checkTrainDelay JSON_parse (Resolved a) r station trainNumber in
  (result = Rejected (Error ("Train " ++ trainNumber
                             ++ " not found at station " ++ station))
   <-> forall d, In d departures -> matchesDelay trainNumber d = false)
  /\ ((exists e, result = Rejected e)
      <-> forall d, In d departures -> matchesDelay trainNumber d = false)
  /\ (forall before d after,
        departures = (before ++ d :: after)%list ->
        matchesDelay trainNumber d = true ->
        (forall x, In x before -> matchesDelay trainNumber x = false) ->
        result = Resolved (delayInfo d) /\ di_train (delayInfo d) = d).
Proof.
  intros Hboard result. subst result. unfold checkTrainDelay. simpl.
  rewrite Hboard. simpl.
  rewrite <- find_none_iff.
  destruct (find (matchesDelay trainNumber) departures) as [t|] eqn:F.
  - split; [split; [discriminate|intros H; discriminate]|].
    split; [split; [intros [e He]; discriminate|intros H; discriminate]|].
    intros before d after -> Hd Hb.
    rewrite (find_at_first _ _ _ _ Hd Hb) in F. injection F as <-.
    split; reflexivity.
  - split; [split; reflexivity|].
    split; [split; [reflexivity|intros _; eexists; reflexivity]|].
    intros before d after -> Hd Hb.
    rewrite (find_at_first _ _ _ _ Hd Hb) in F. discriminate.
Qed.

(** *** Journey inference of the [track] command *)

Lemma isDeparted_found (c : Checkpoint) : isDeparted c = true -> found c = true.
Proof. destruct c; simpl; intros H; try reflexivity; discriminate. Qed.

Lemma isUpcoming_found (c : Checkpoint) : isUpcoming c = true -> found c = true.
Proof. destruct c; simpl; intros H; try reflexivity; discriminate. Qed.

Lemma visit_cases (a b : option Marker) (c : Checkpoint) :
  visit (a, b) c =
    if isDeparted c then (Some (marker c), b)
    else if isUpcoming c
         then (a, match b with None => Some (marker c) | Some _ => b end)
         else (a, b).
Proof.
  unfold visit. destruct (isDeparted c) eqn:D.
  - rewrite (isDeparted_found _ D). unfold isDeparted in D. now rewrite D.
  - unfold isDeparted in D. rewrite D.
    destruct (isUpcoming c) eqn:U.
    + rewrite (isUpcoming_found _ U). unfold isUpcoming in U. rewrite U.
      now destruct b.
    + unfold isUpcoming in U. rewrite U. now destruct (found c).
Qed.

(** The loop computes the last departed checkpoint and the first
    upcoming one, each over the whole list. *)
Lemma fold_visit (l : list Checkpoint) (a b : option Marker) :
  fold_left visit l (a, b) =
    (match find isDeparted (rev l) with
     | Some c => Some (marker c)
     | None => a
     end,
     match b with
     | Some _ => b
     | None => marker <$> find isUpcoming l
     end).
Proof.
  revert a b. induction l as [|c l IH]; intros a b; cbn [fold_left rev].
  - now destruct b.
  - rewrite visit_cases.
    assert (Hrev : find isDeparted (rev l ++ [c])%list =
              match find isDeparted (rev l) with
              | Some x => Some x
              | None => if isDeparted c then Some c else None
              end).
    { generalize (rev l). intros k. induction k as [|x k IHk]; simpl.
      - reflexivity.
      - now destruct (isDeparted x). }
    rewrite Hrev. cbn [find].
    destruct (isDeparted c) eqn:D.
    + assert (U : isUpcoming c = false).
      { destruct c as [|s t st ? ? ? ? ?|]; try reflexivity.
        unfold isDeparted, isUpcoming, statusIs in *. simpl in *.
        apply String.eqb_eq in D. now subst st. }
      rewrite U, IH.
      destruct (find isDeparted (rev l)); destruct b; reflexivity.
    + destruct (isUpcoming c) eqn:U; rewrite IH;
        destruct (find isDeparted (rev l)); destruct b; reflexivity.
Qed.

Lemma head_filter_find {A : Type} (f : A -> bool) (l : list A) :
  head (List.filter f l) = find f l.
Proof.
  induction l as [|a l IH]; simpl; [reflexivity|]. now destruct (f a).
Qed.

Lemma isDeparted_not_upcoming (c : Checkpoint) :
  isDeparted c = true -> isUpcoming c = false.
Proof.
  destruct c as [|s t st ? ? ? ? ?|]; try discriminate.
  unfold isDeparted, isUpcoming, statusIs. simpl.
  intros D. apply String.eqb_eq in D. now subst st.
Qed.

(** On lists in which no scheduled or delayed checkpoint stands before a
    departed one (the statuses of a train that runs through the stations
    in list order), the loop and the specification's wording name the
    same [nextArrival]. *)
Lemma nextArrival_agrees_on_ordered_routes (results : list Checkpoint) :
  (forall before c after,
     results = (before ++ c :: after)%list -> isDeparted c = true ->
     forall x, In x before -> isUpcoming x = false) ->
  snd (inferJourney results) = spec_nextArrival results.
Proof.
  intros Hord. unfold inferJourney, spec_nextArrival.
  rewrite fold_visit. cbn [snd]. f_equal. rewrite head_filter_find.
  induction results as [|c r IH]; [reflexivity|].
  assert (Hr : forall before d after,
            r = (before ++ d :: after)%list -> isDeparted d = true ->
            forall x, In x before -> isUpcoming x = false).
  { intros before d after -> D x Hx.
    apply (Hord (c :: before) d after eq_refl D). now right. }
  cbn [spec_afterLastDeparted find].
  destruct (existsb isDeparted r) eqn:E.
  - apply existsb_exists in E as (d & Hd & D).
    apply in_split in Hd as (before & after & ->).
    rewrite (Hord (c :: before) d after eq_refl D c) by now left.
    now apply IH.
  - destruct (isDeparted c) eqn:D; [|reflexivity].
    now rewrite (isDeparted_not_upcoming c D).
Qed.

(** C1, as the code has it: [lastDeparted] is the rightmost checkpoint
    with status departed, and [nextArrival] is the leftmost checkpoint of
    the whole list with status scheduled or delayed, wherever the
    departed checkpoints stand. *)
Theorem inferJourney_rightmost_departed_leftmost_upcoming
    (results : list Checkpoint) :
  exists lastDeparted nextArrival : option Checkpoint,
    inferJourney results = (marker <$> lastDeparted, marker <$> nextArrival)
    /\ match lastDeparted with
       | Some c =>
           exists before after,
             results = (before ++ c :: after)%list /\ isDeparted c = true
             /\ forall x, In x after -> isDeparted x = false
       | None => forall x, In x results -> isDeparted x = false
       end
    /\ match nextArrival with
       | Some c =>
           exists before after,
             results = (before ++ c :: after)%list /\ isUpcoming c = true
             /\ forall x, In x before -> isUpcoming x = false
       | None => forall x, In x results -> isUpcoming x = false
       end.
Proof.
  exists (find isDeparted (rev results)), (find isUpcoming results).
  split; [|split].
  - unfold inferJourney. rewrite fold_visit.
    now destruct (find isDeparted (rev results)).
  - destruct (find isDeparted (rev results)) as [c|] eqn:F.
    + destruct (find_first _ _ _ F) as (b & a & E & Dc & Hb).
      exists (rev a), (rev b). split; [|split; [assumption|]].
      * rewrite <- (rev_involutive results), E, rev_app_distr. simpl.
        now rewrite <- app_assoc.
      * intros x Hx. apply Hb. now apply in_rev.
    + intros x Hx. apply (find_none _ _ F). now apply in_rev in Hx.
  - destruct (find isUpcoming results) as [c|] eqn:F.
    + destruct (find_first _ _ _ F) as (b & a & E & Uc & Hb).
      exists b, a. auto.
    + intros x Hx. apply (find_none _ _ F _ Hx).
Qed.

(** C1, counterexample: with a scheduled checkpoint at A standing before
    the departed checkpoint at B, the loop names A as [nextArrival],
    where no checkpoint behind B is scheduled or delayed. *)
Lemma nextArrival_may_precede_lastDeparted :
  inferJourney [cp_A_scheduled; cp_B_departed]
    = (Some (marker cp_B_departed), Some (marker cp_A_scheduled))
  /\ spec_nextArrival [cp_A_scheduled; cp_B_departed] = None
  /\ snd (inferJourney [cp_A_scheduled; cp_B_departed])
     <> spec_nextArrival [cp_A_scheduled; cp_B_departed].
Proof. repeat split. intros [=]. Qed.

(** *** [Promise.all] *)

(** A filled slot always holds the value of the promise of its index. *)
Lemma settleAll_sound {A : Type} (ps : list (Promise A)) (order : list nat) :
  forall (values : list (option A)) (remaining : nat) (vs : list A),
    (forall j v, values !! j = Some (Some v) -> ps !! j = Some (Resolved v)) ->
    settleAll ps order values remaining = Some (Resolved vs) ->
    forall j v, vs !! j = Some v -> ps !! j = Some (Resolved v).
Proof.
  induction order as [|i rest IH]; intros values remaining vs Hinv; simpl.
  - discriminate.
  - destruct (ps !! i) as [[v|e]|] eqn:Pi.
    + assert (Hinv' : forall j w, <[i:=Some v]> values !! j = Some (Some w) ->
                ps !! j = Some (Resolved w)).
      { intros j w. destruct (decide (i = j)) as [<-|Hne].
        - intros H. apply list_lookup_insert_Some in H.
          destruct H as [(_ & E & _)|(Hne & _)]; [|congruence].
          injection E as ->. exact Pi.
        - rewrite list_lookup_insert_ne by assumption. apply Hinv. }
      destruct remaining as [|[|n]].
      * apply IH. exact Hinv'.
      * destruct (mapM id (<[i:=Some v]> values)) as [ws|] eqn:M; [|discriminate].
        intros [= <-] j w Hj. apply mapM_Some in M.
        destruct (Forall2_lookup_r _ _ _ _ _ M Hj) as (o & Ho & Eo).
        simpl in Eo. subst o. apply Hinv'. exact Ho.
      * apply IH. exact Hinv'.
    + discriminate.
    + apply IH. exact Hinv.
Qed.

(** When every promise is fulfilled and each settles exactly once, the
    whole resolves with the values in the order of the promises. *)
Lemma settleAll_complete {A : Type} (vs : list A) (order : list nat) :
  forall (values : list (option A)),
    NoDup order ->
    (forall i, i ∈ order -> (i < length vs)%nat) ->
    length values = length vs ->
    (forall j, (j < length vs)%nat -> j ∉ order ->
       values !! j = Some (vs !! j)) ->
    order <> [] ->
    settleAll (Resolved <$> vs) order values (length order) = Some (Resolved vs).
Proof.
  induction order as [|i rest IH]; intros values Hnd Hlt Hlen Hfilled Hne.
  - congruence.
  - cbn [settleAll]. apply NoDup_cons in Hnd as [Hi Hnd].
    assert (Hilt : (i < length vs)%nat) by (apply Hlt; left).
    destruct (lookup_lt_is_Some_2 vs i Hilt) as [v Hv].
    rewrite list_lookup_fmap, Hv. cbn [fmap option_fmap option_map].
    assert (Hfilled' : forall j, (j < length vs)%nat -> j ∉ rest ->
              <[i:=Some v]> values !! j = Some (vs !! j)).
    { intros j Hj Hjr. destruct (decide (i = j)) as [<-|Hij].
      - rewrite list_lookup_insert_eq by lia. now rewrite Hv.
      - rewrite list_lookup_insert_ne by assumption. apply Hfilled; [assumption|].
        intros Hin. apply elem_of_cons in Hin as [->|Hin]; auto. }
    destruct rest as [|k rest'].
    + cbn [length].
      assert (E : <[i:=Some v]> values = Some <$> vs).
      { apply list_eq. intros j. rewrite list_lookup_fmap.
        destruct (decide (j < length vs)%nat) as [Hj|Hj].
        - rewrite Hfilled' by (auto; apply not_elem_of_nil).
          destruct (lookup_lt_is_Some_2 vs j Hj) as [w Hw]. now rewrite Hw.
        - rewrite (lookup_ge_None_2 vs j) by lia.
          apply lookup_ge_None_2. rewrite length_insert. lia. }
      rewrite E, mapM_fmap_Some by reflexivity. reflexivity.
    + change (length (i :: k :: rest')) with (S (S (length rest'))).
      cbn [Nat.sub]. change (S (length rest')) with (length (k :: rest')).
      replace (S (length (k :: rest')) - 1)%nat with (length (k :: rest')) by lia.
      apply IH; try assumption.
      * intros j Hj. apply Hlt. now right.
      * now rewrite length_insert.
      * discriminate.
Qed.

Lemma Promise_all_fulfilled {A : Type} (vs : list A) (order : list nat) :
  order ≡ₚ seq 0 (length vs) ->
  Promise_all (Resolved <$> vs) order = Some (Resolved vs).
Proof.
  intros Hp. unfold Promise_all.
  destruct vs as [|v vs]; [reflexivity|].
  change (Resolved <$> v :: vs) with (Resolved v :: (Resolved <$> vs)).
  cbv beta iota. change (Resolved v :: (Resolved <$> vs)) with (Resolved <$> v :: vs).
  rewrite length_fmap.
  replace (length (v :: vs)) with (length order) at 2
    by (rewrite Hp; apply length_seq).
  apply settleAll_complete.
  - rewrite Hp. apply NoDup_seq.
  - intros i Hi. rewrite Hp in Hi. apply elem_of_seq in Hi. lia.
  - apply length_replicate.
  - intros j Hj Hn. exfalso. apply Hn. rewrite Hp. apply elem_of_seq. lia.
  - intros ->. apply Permutation_nil_l in Hp. discriminate.
Qed.

Lemma all_fulfilled {A : Type} (ps : list (Promise A)) :
  (forall p, p ∈ ps -> exists v, p = Resolved v) ->
  exists vs, ps = Resolved <$> vs.
Proof.
  induction ps as [|p ps IH]; intros H.
  - now exists [].
  - destruct (H p) as [v ->]; [left|].
    destruct IH as [vs ->]; [intros q Hq; apply H; now right|].
    now exists (v :: vs).
Qed.

(** *** [trackTrainJourney] *)

Lemma checkStation_stationId (tza : TimeZone) (trainName sid : string) (now today : Z)
    (departures : list Departure) (c : Checkpoint) :
  checkStation tza trainName sid now today departures = Resolved c ->
  stationId c = sid.
Proof.
  unfold checkStation.
  destruct (find (matchesTrack trainName) departures) as [train|].
  - destruct (ti train); [|discriminate]. now intros [= <-].
  - now intros [= <-].
Qed.

(** Every station promise is fulfilled, also when its board was not. *)
Lemma stationPromise_fulfilled (JSON_parse : string -> option Payload)
    (tza : TimeZone) (trainName sid : string) (l : Lookup) :
  exists c,
    stationPromise JSON_parse tza trainName sid l = Resolved c
    /\ stationId c = sid.
Proof.
  unfold stationPromise.
  destruct (getBoardData JSON_parse (reply l) >>= findOn) as [departures|e]; simpl.
  - destruct (checkStation tza trainName sid (now l) (today l) departures)
      as [c|e] eqn:C; simpl.
    + exists c. split; [reflexivity|]. now apply checkStation_stationId in C.
    + eexists. split; reflexivity.
  - eexists. split; reflexivity.
Qed.

Lemma trackTrainJourney_resolves (JSON_parse : string -> option Payload)
    (tza : TimeZone) (a : Auth) (lookups : nat -> Lookup) (order : list nat)
    (trainName : string) (stationIds : list string) :
  order ≡ₚ seq 0 (length stationIds) ->
  exists cps,
    trackTrainJourney JSON_parse tza (Resolved a) lookups order trainName stationIds
      = Some (Resolved cps)
    /\ imap (fun i sid => stationPromise JSON_parse tza trainName sid (lookups i))
            stationIds = Resolved <$> cps.
Proof.
  intros Hp. unfold trackTrainJourney.
  destruct (all_fulfilled
    (imap (fun i sid => stationPromise JSON_parse tza trainName sid (lookups i))
          stationIds)) as [cps E].
  - intros p Hp'. apply list_elem_of_lookup in Hp' as [i Hi].
    apply list_lookup_imap_Some in Hi as (sid & _ & ->).
    destruct (stationPromise_fulfilled JSON_parse tza trainName sid (lookups i))
      as (c & -> & _).
    now exists c.
  - exists cps. split; [|exact E]. rewrite E. apply Promise_all_fulfilled.
    assert (L : length cps = length stationIds).
    { rewrite <- (length_fmap Resolved cps), <- E. apply length_imap. }
    now rewrite L.
Qed.

(** The checkpoint at each position is the one its own station promise
    resolved with. *)
Lemma trackTrainJourney_pointwise (JSON_parse : string -> option Payload)
    (tza : TimeZone) (lookups : nat -> Lookup) (trainName : string)
    (stationIds : list string) (cps : list Checkpoint) :
  imap (fun i sid => stationPromise JSON_parse tza trainName sid (lookups i))
       stationIds = Resolved <$> cps ->
  length cps = length stationIds
  /\ forall i sid, stationIds !! i = Some sid ->
       exists c, cps !! i = Some c
         /\ stationPromise JSON_parse tza trainName sid (lookups i) = Resolved c.
Proof.
  intros E.
  assert (L : length cps = length stationIds).
  { rewrite <- (length_fmap Resolved cps), <- E. apply length_imap. }
  split; [exact L|]. intros i sid Hi.
  assert (H : (Resolved <$> cps) !! i
              = Some (stationPromise JSON_parse tza trainName sid (lookups i))).
  { rewrite <- E, list_lookup_imap, Hi. reflexivity. }
  rewrite list_lookup_fmap in H.
  destruct (cps !! i) as [c|]; [|discriminate].
  exists c. split; [reflexivity|]. simpl in H. congruence.
Qed.

(** C9: whatever the order in which the station lookups complete, the
    track call resolves with exactly one checkpoint per station id, and
    the checkpoint at position [i] carries the [i]-th station id. *)
Theorem trackTrainJourney_keeps_station_order
    (JSON_parse : string -> option Payload) (tza : TimeZone) (a : Auth)
    (lookups : nat -> Lookup) (order : list nat)
    (trainName : string) (stationIds : list string) :
  order ≡ₚ seq 0 (length stationIds) ->
  exists cps,
    trackTrainJourney JSON_parse tza (Resolved a) lookups order trainName stationIds
      = Some (Resolved cps)
    /\ length cps = length stationIds
    /\ stationId <$> cps = stationIds
    /\ forall i, stationId <$> (cps !! i) = stationIds !! i.
Proof.
  intros Hp.
  destruct (trackTrainJourney_resolves JSON_parse tza a lookups order
              trainName stationIds Hp) as (cps & R & E).
  destruct (trackTrainJourney_pointwise _ _ _ _ _ _ E) as [L P].
  assert (Q : forall i, stationId <$> (cps !! i) = stationIds !! i).
  { intros i. destruct (stationIds !! i) as [sid|] eqn:Hi.
    - destruct (P i sid Hi) as (c & -> & Hc). simpl. f_equal.
      destruct (stationPromise_fulfilled JSON_parse tza trainName sid (lookups i))
        as (c' & Hc' & Hs).
      congruence.
    - apply lookup_ge_None in Hi. rewrite (lookup_ge_None_2 cps i) by lia.
      reflexivity. }
  exists cps. repeat split; try assumption.
  apply list_eq. intros i. rewrite list_lookup_fmap. apply Q.
Qed.

(** C6: a station whose board lookup failed gets a [found: false]
    checkpoint that records the error, and the call still resolves with
    the checkpoints of all stations, each computed from the lookup of
    its own station only. *)
Theorem trackTrainJourney_isolates_station_failures
    (JSON_parse : string -> option Payload) (tza : TimeZone) (a : Auth)
    (lookups : nat -> Lookup) (order : list nat)
    (trainName : string) (stationIds : list string) :
  order ≡ₚ seq 0 (length stationIds) ->
  exists cps,
    trackTrainJourney JSON_parse tza (Resolved a) lookups order trainName stationIds
      = Some (Resolved cps)
    /\ length cps = length stationIds
    /\ forall i sid, stationIds !! i = Some sid ->
         match getBoardData JSON_parse (reply (lookups i)) with
         | Rejected e =>
             cps !! i = Some (Failed sid (message e))
             /\ found (Failed sid (message e)) = false
         | Resolved board =>
             exists c, cps !! i = Some c
               /\ stationPromise JSON_parse tza trainName sid (lookups i)
                  = Resolved c
               /\ (forall departures c',
                     board = JList departures ->
                     checkStation tza trainName sid (now (lookups i))
                       (today (lookups i)) departures = Resolved c' -> c = c')
         end.
Proof.
  intros Hp.
  destruct (trackTrainJourney_resolves JSON_parse tza a lookups order
              trainName stationIds Hp) as (cps & R & E).
  destruct (trackTrainJourney_pointwise _ _ _ _ _ _ E) as [L P].
  exists cps. split; [exact R|]. split; [exact L|].
  intros i sid Hi. destruct (P i sid Hi) as (c & Hc & Hs).
  unfold stationPromise in Hs.
  destruct (getBoardData JSON_parse (reply (lookups i))) as [board|e] eqn:G.
  - exists c. split; [exact Hc|]. split.
    + unfold stationPromise. now rewrite G.
    + intros departures c' -> Hc'. simpl in Hs. rewrite Hc' in Hs.
      simpl in Hs. congruence.
  - simpl in Hs. injection Hs as <-. split; [exact Hc|reflexivity].
Qed.

Lemma checkStation_departed_flag (tza : TimeZone) (trainName sid : string)
    (now today : Z) (departures : list Departure) (c : Checkpoint) :
  checkStation tza trainName sid now today departures = Resolved c ->
  found c = true ->
  departed c = Some (statusIs c "departed").
Proof.
  unfold checkStation.
  destruct (find (matchesTrack trainName) departures) as [train|].
  - destruct (ti train) as [t|]; [|discriminate].
    intros [= <-] _. unfold statusIs. cbn [departed status].
    match goal with
    | |- context [actualInstant ?z ?x ?y] =>
        destruct (actualInstant z x y) as [y'|]; [destruct (y' <? now)|]
    end; try reflexivity; now destruct (JS.truthy (rtField dlm train)).
  - intros [= <-]. discriminate.
Qed.

(** C10: in every checkpoint with [found: true] that a track call
    returns, the field [departed] is true exactly when the status is
    'departed'. *)
Theorem trackTrainJourney_departed_iff_status
    (JSON_parse : string -> option Payload) (tza : TimeZone) (auth : Promise Auth)
    (lookups : nat -> Lookup) (order : list nat)
    (trainName : string) (stationIds : list string)
    (cps : list Checkpoint) (i : nat) (c : Checkpoint) :
  trackTrainJourney JSON_parse tza auth lookups order trainName stationIds
    = Some (Resolved cps) ->
  cps !! i = Some c ->
  found c = true ->
  departed c = Some (statusIs c "departed").
Proof.
  unfold trackTrainJourney. destruct auth as [a|e]; [|discriminate].
  unfold Promise_all.
  set (ps := imap (fun i sid => stationPromise JSON_parse tza trainName sid
                                  (lookups i)) stationIds).
  intros H Hc Hf.
  assert (Hp : ps !! i = Some (Resolved c)).
  { destruct ps as [|p ps'] eqn:Eps.
    - injection H as <-. discriminate.
    - rewrite <- Eps in *.
      apply (settleAll_sound ps order (replicate (length ps) None) (length ps) cps);
        [|exact H|exact Hc].
      intros j v Hj. apply lookup_replicate in Hj as [? _]. discriminate. }
  subst ps. apply list_lookup_imap_Some in Hp as (sid & _ & Hs).
  symmetry in Hs. unfold stationPromise in Hs.
  destruct (getBoardData JSON_parse (reply (lookups i)) >>= findOn)
    as [departures|e]; simpl in Hs.
  - destruct (checkStation tza trainName sid (now (lookups i))
                (today (lookups i)) departures) as [c'|e] eqn:C; simpl in Hs.
    + injection Hs as ->. eapply checkStation_departed_flag; eassumption.
    + injection Hs as <-. discriminate.
  - injection Hs as <-. discriminate.
Qed.

(** *** Dates *)

Lemma time_recomposed (lt d : Z) :
  JSDate.Day lt * JSDate.msPerDay
  + (JSDate.HourFromTime lt * JSDate.msPerHour
     + (JSDate.MinFromTime lt + d) * JSDate.msPerMinute
     + JSDate.SecFromTime lt * JSDate.msPerSecond + JSDate.msFromTime lt)
  = lt + d * 60000.
Proof.
  unfold JSDate.Day, JSDate.HourFromTime, JSDate.MinFromTime,
    JSDate.SecFromTime, JSDate.msFromTime, JSDate.msPerDay, JSDate.msPerHour,
    JSDate.msPerMinute, JSDate.msPerSecond.
  Z.div_mod_to_equations. lia.
Qed.

(** [setMinutes(getMinutes() + delay)] moves the wall-clock time by
    that many minutes and reads the result with the offset of the new
    wall-clock time. *)
Lemma actualInstant_value (tza : TimeZone) (s d : Z) :
  actualInstant tza (Some s) (Some d)
  = JSDate.TimeClip
      (s + offset tza s true + d * 60000
       - offset tza (s + offset tza s true + d * 60000) false).
Proof.
  unfold actualInstant, JSDate.setMinutes, JSDate.getMinutes, JS.add,
    JSDate.MakeDate, JSDate.MakeTime, JSDate.UTC.
  rewrite time_recomposed. reflexivity.
Qed.

(** Without a clock change in between, the instant moves by the delay. *)
Lemma actualInstant_adds_minutes (tza : TimeZone) (s d : Z) :
  steadyOffset tza s d ->
  actualInstant tza (Some s) (Some d) = JSDate.TimeClip (s + d * 60000).
Proof.
  intros H. rewrite actualInstant_value. unfold steadyOffset in H.
  rewrite H. f_equal. lia.
Qed.

Lemma TimeClip_Some (t u : Z) :
  JSDate.TimeClip t = Some u -> u = t /\ Z.abs t <= 8640000000000000.
Proof.
  unfold JSDate.TimeClip.
  destruct (Z.abs t <=? 8640000000000000) eqn:E; [|discriminate].
  intros [= <-]. split; [reflexivity|]. now apply Z.leb_le.
Qed.

Lemma TimeClip_in_range (t : Z) :
  Z.abs t <= 8640000000000000 -> JSDate.TimeClip t = Some t.
Proof.
  intros H. unfold JSDate.TimeClip. apply Z.leb_le in H. now rewrite H.
Qed.

Lemma scheduledInstant_in_range (tza : TimeZone) (today : Z) (t : string) (sched : Z) :
  scheduledInstant tza today t = Some sched -> Z.abs sched <= 8640000000000000.
Proof.
  unfold scheduledInstant, JSDate.setHours.
  destruct (JSDate.MakeDate _ _) as [date|]; [|discriminate].
  intros H. apply TimeClip_Some in H as [-> H]. exact H.
Qed.

(** *** Status derivation *)

Lemma checkStation_matched (tza : TimeZone) (trainName sid : string) (now today : Z)
    (departures : list Departure) (train : Departure) (t : string) :
  find (matchesTrack trainName) departures = Some train ->
  ti train = Some t ->
  let hasDelay := JS.truthy (rtField dlm train) in
  let delay := if hasDelay then JS.parseInt (JS.tpl (rtField dlm train))
               else Some 0 in
  let late := JS.gt (Some now)
                (actualInstant tza (scheduledInstant tza today t) delay) in
  exists sd ad pf,
    checkStation tza trainName sid now today departures
    = Resolved (Found sid train
        (if late then "departed" else if hasDelay then "delayed" else "scheduled")
        sd ad delay pf late).
Proof.
  intros F T. unfold checkStation. rewrite F, T. cbv zeta.
  eexists _, _, _. reflexivity.
Qed.

Lemma scheduledInstant_day (tza : TimeZone) (today today' : Z) (t : string) :
  JSDate.Day (JSDate.LocalTime tza today') = JSDate.Day (JSDate.LocalTime tza today) ->
  scheduledInstant tza today' t = scheduledInstant tza today t.
Proof.
  intros H. unfold scheduledInstant, JSDate.setHours. now rewrite H.
Qed.

(** C3, as the code has it: the status of a matched record is a
    function of its scheduled time, its realtime delay field, [now] and
    the calendar day of the clock read; the scheduled instant is that day
    at the scheduled time and, as long as no clock change lies between
    the scheduled instant and the delayed wall-clock time, the actual
    instant lies the delay minutes behind it.  Measured from that
    scheduled instant and under that proviso: a record without delay
    field is scheduled one minute before and departed five minutes
    after; a record with delay field "10" is delayed one minute before
    and departed fifteen minutes after. *)
Theorem status_derivation_on_todays_schedule
    (tza : TimeZone) (trainName sid : string) (today : Z)
    (departures : list Departure) (train : Departure) (t : string) (sched : Z) :
  find (matchesTrack trainName) departures = Some train ->
  ti train = Some t ->
  scheduledInstant tza today t = Some sched ->
  let statusAt now :=
    statusOf (checkStation tza trainName sid now today departures) in
  (forall today' departures' train',
     find (matchesTrack trainName) departures' = Some train' ->
     ti train' = Some t ->
     rtField dlm train' = rtField dlm train ->
     JSDate.Day (JSDate.LocalTime tza today')
       = JSDate.Day (JSDate.LocalTime tza today) ->
     forall now,
       statusOf (checkStation tza trainName sid now today' departures')
       = statusAt now)
  /\ (forall d, steadyOffset tza sched d ->
       actualInstant tza (Some sched) (Some d)
       = JSDate.TimeClip (sched + d * 60000))
  /\ (JS.truthy (rtField dlm train) = false ->
      steadyOffset tza sched 0 ->
      statusAt (sched - 60000) = Some "scheduled"
      /\ statusAt (sched + 5 * 60000) = Some "departed")
  /\ (rtField dlm train = Some "10" ->
      steadyOffset tza sched 10 ->
      sched + 10 * 60000 <= 8640000000000000 ->
      statusAt (sched - 60000) = Some "delayed"
      /\ statusAt (sched + 15 * 60000) = Some "departed").
Proof.
  intros F T S statusAt. subst statusAt. cbv beta.
  pose proof (scheduledInstant_in_range _ _ _ _ S) as R.
  split; [|split; [|split]].
  - intros today' departures' train' F' T' D' Hday now.
    destruct (checkStation_matched tza trainName sid now today _ _ _ F T)
      as (sd & ad & pf & ->).
    destruct (checkStation_matched tza trainName sid now today' _ _ _ F' T')
      as (sd' & ad' & pf' & ->).
    cbn [statusOf status]. now rewrite D', (scheduledInstant_day _ _ _ _ Hday).
  - intros d. apply actualInstant_adds_minutes.
  - intros Hd St. split.
    + destruct (checkStation_matched tza trainName sid (sched - 60000) today
                  _ _ _ F T) as (sd & ad & pf & ->).
      cbn [statusOf status]. rewrite Hd, S, (actualInstant_adds_minutes _ _ _ St).
      rewrite TimeClip_in_range by lia. cbn [JS.gt].
      replace (sched + 0 * 60000 <? sched - 60000) with false
        by (symmetry; apply Z.ltb_ge; lia).
      reflexivity.
    + destruct (checkStation_matched tza trainName sid (sched + 5 * 60000) today
                  _ _ _ F T) as (sd & ad & pf & ->).
      cbn [statusOf status]. rewrite Hd, S, (actualInstant_adds_minutes _ _ _ St).
      rewrite TimeClip_in_range by lia. cbn [JS.gt].
      replace (sched + 0 * 60000 <? sched + 5 * 60000) with true
        by (symmetry; apply Z.ltb_lt; lia).
      reflexivity.
  - intros Hd St Hmax.
    assert (P : JS.parseInt (JS.tpl (Some "10")) = Some 10) by reflexivity.
    assert (Q : JS.truthy (Some "10") = true) by reflexivity.
    split.
    + destruct (checkStation_matched tza trainName sid (sched - 60000) today
                  _ _ _ F T) as (sd & ad & pf & ->).
      cbn [statusOf status].
      rewrite Hd, Q, P, S, (actualInstant_adds_minutes _ _ _ St).
      rewrite TimeClip_in_range by lia. cbn [JS.gt].
      replace (sched + 10 * 60000 <? sched - 60000) with false
        by (symmetry; apply Z.ltb_ge; lia).
      reflexivity.
    + destruct (checkStation_matched tza trainName sid (sched + 15 * 60000) today
                  _ _ _ F T) as (sd & ad & pf & ->).
      cbn [statusOf status].
      rewrite Hd, Q, P, S, (actualInstant_adds_minutes _ _ _ St).
      rewrite TimeClip_in_range by lia. cbn [JS.gt].
      replace (sched + 10 * 60000 <? sched + 15 * 60000) with true
        by (symmetry; apply Z.ltb_lt; lia).
      reflexivity.
Qed.

(** C4, as the code has it: a matched record whose delay field is the
    string "0" gets a checkpoint with a delay of 0 minutes whose status
    is never 'scheduled': while [now] is not past the actual departure
    instant the status is 'delayed', the non-empty string "0" being
    truthy. *)
Theorem zero_delay_field_counts_as_delayed
    (tza : TimeZone) (trainName sid : string) (now today : Z)
    (departures : list Departure) (train : Departure) (t : string) :
  find (matchesTrack trainName) departures = Some train ->
  ti train = Some t ->
  rtField dlm train = Some "0" ->
  exists c,
    checkStation tza trainName sid now today departures = Resolved c
    /\ found c = true
    /\ delayMinutes c = Some (Some 0)
    /\ status c <> Some "scheduled"
    /\ (departed c = Some false -> status c = Some "delayed").
Proof.
  intros F T D.
  destruct (checkStation_matched tza trainName sid now today _ _ _ F T)
    as (sd & ad & pf & ->).
  rewrite D.
  change (JS.truthy (Some "0")) with true. cbv iota.
  change (JS.parseInt (JS.tpl (Some "0"))) with (Some 0).
  eexists. split; [reflexivity|]. cbn [found delayMinutes status departed].
  repeat split.
  - match goal with |- context [JS.gt ?x ?y] => destruct (JS.gt x y) end;
      discriminate.
  - match goal with |- context [JS.gt ?x ?y] => destruct (JS.gt x y) end;
      [discriminate|reflexivity].
Qed.

(** The day, hour and minute the code reads are all there is to the
    scheduled instant. *)
Lemma scheduledInstant_spec (tza : TimeZone) (today : Z) (t : string) :
  scheduledInstant tza today t =
    match JS.parseInt (JS.tpl (JS.split ":" t !! 0%nat)),
          JS.parseInt (JS.tpl (JS.split ":" t !! 1%nat)) with
    | Some hh, Some mm =>
        JSDate.TimeClip
          (wallClockToday tza today hh mm
           - offset tza (wallClockToday tza today hh mm) false)
    | _, _ => None
    end.
Proof.
  unfold scheduledInstant, JSDate.setHours, JSDate.MakeDate, JSDate.MakeTime,
    JSDate.UTC, wallClockToday.
  destruct (JS.parseInt (JS.tpl (JS.split ":" t !! 0%nat))) as [hh|];
    [|reflexivity].
  destruct (JS.parseInt (JS.tpl (JS.split ":" t !! 1%nat))) as [mm|];
    [|reflexivity].
  unfold JSDate.msPerSecond.
  replace (JSDate.Day (JSDate.LocalTime tza today) * JSDate.msPerDay
           + (hh * JSDate.msPerHour + mm * JSDate.msPerMinute + 0 * 1000 + 0))
    with (JSDate.Day (JSDate.LocalTime tza today) * JSDate.msPerDay
          + hh * JSDate.msPerHour + mm * JSDate.msPerMinute) by lia.
  reflexivity.
Qed.

Lemma find_withDate (trainName : string) (dates : Departure -> option string)
    (departures : list Departure) :
  find (matchesTrack trainName)
       (map (fun d => withDate (dates d) d) departures)
  = (fun d => withDate (dates d) d) <$> find (matchesTrack trainName) departures.
Proof.
  induction departures as [|d l IH]; [reflexivity|].
  cbn [map find].
  change (matchesTrack trainName (withDate (dates d) d))
    with (matchesTrack trainName d).
  destruct (matchesTrack trainName d); [reflexivity|exact IH].
Qed.

(** C5, as the code has it: the scheduled departure instant used by the
    status derivation is the instant at which the local wall clock shows
    the calendar day of the clock read (today) at the hour and minute of
    the record's scheduledTime: the status is 'departed' exactly when
    [now] lies behind that instant plus the delay minutes.  The record's
    scheduledDate is not consulted: records which differ in their
    scheduledDate only get the same status.  (The wall-clock times
    involved are taken to be read with one and the same offset, that
    is, no clock change repeats or skips them.) *)
Theorem scheduled_instant_is_today_at_scheduledTime
    (tza : TimeZone) (trainName sid : string) (now today : Z)
    (departures : list Departure) (t : Departure) (tm : string) (hh mm d : Z) :
  find (matchesTrack trainName) departures = Some t ->
  ti t = Some tm ->
  JS.parseInt (JS.tpl (JS.split ":" tm !! 0%nat)) = Some hh ->
  JS.parseInt (JS.tpl (JS.split ":" tm !! 1%nat)) = Some mm ->
  (if JS.truthy (rtField dlm t) then JS.parseInt (JS.tpl (rtField dlm t))
   else Some 0) = Some d ->
  let wall := wallClockToday tza today hh mm in
  let sched := wall - offset tza wall false in
  offset tza sched true = offset tza wall false ->
  offset tza (wall + d * 60000) false = offset tza wall false ->
  Z.abs sched <= 8640000000000000 ->
  Z.abs (sched + d * 60000) <= 8640000000000000 ->
  (statusOf (checkStation tza trainName sid now today departures)
     = Some "departed" <-> sched + d * 60000 < now)
  /\ JSDate.LocalTime tza sched = wall
  /\ (0 <= hh < 24 -> 0 <= mm < 60 ->
      JSDate.Day (JSDate.LocalTime tza sched)
        = JSDate.Day (JSDate.LocalTime tza today)
      /\ JSDate.HourFromTime (JSDate.LocalTime tza sched) = hh
      /\ JSDate.MinFromTime (JSDate.LocalTime tza sched) = mm)
  /\ (forall dates : Departure -> option string,
        statusOf (checkStation tza trainName sid now today
                    (map (fun x => withDate (dates x) x) departures))
        = statusOf (checkStation tza trainName sid now today departures)).
Proof.
  intros F T Ph Pm D wall sched O1 O2 R1 R2.
  assert (L : JSDate.LocalTime tza sched = wall).
  { unfold JSDate.LocalTime. rewrite O1. subst sched. lia. }
  split; [|split; [exact L|split]].
  - destruct (checkStation_matched tza trainName sid now today _ _ _ F T)
      as (sd & ad & pf & ->).
    cbn [statusOf status]. rewrite D, scheduledInstant_spec, Ph, Pm.
    fold wall. fold sched. rewrite (TimeClip_in_range _ R1).
    rewrite actualInstant_value.
    replace (sched + offset tza sched true) with wall
      by (rewrite O1; subst sched; lia).
    rewrite O2.
    replace (wall + d * 60000 - offset tza wall false)
      with (sched + d * 60000) by (subst sched; lia).
    rewrite (TimeClip_in_range _ R2). cbn [JS.gt].
    destruct (Z.ltb_spec (sched + d * 60000) now) as [Lt|Ge].
    + split; [intros _; exact Lt|reflexivity].
    + split; [|lia]. destruct (JS.truthy (rtField dlm t)); discriminate.
  - intros Hh Hm. rewrite L. subst wall.
    unfold wallClockToday, JSDate.Day, JSDate.HourFromTime, JSDate.MinFromTime,
      JSDate.msPerDay, JSDate.msPerHour, JSDate.msPerMinute.
    generalize (JSDate.LocalTime tza today). intros lt.
    repeat split; Z.div_mod_to_equations; lia.
  - intros dates. unfold checkStation. rewrite find_withDate, F.
    cbn [fmap option_fmap option_map].
    change (ti (withDate (dates t) t)) with (ti t). rewrite T. reflexivity.
Qed.

(** *** The embedded-JSON marker *)

Lemma dropPrefix_Some (p s r : string) :
  dropPrefix p s = Some r <-> s = p ++ r.
Proof.
  revert s. induction p as [|a p IH]; intros s; simpl.
  - split; [now intros [= ->]|now intros ->].
  - destruct s as [|b s]; [split; discriminate|].
    destruct (Ascii.eqb_spec a b) as [->|Hne].
    + rewrite IH. split; [now intros ->|now intros [= ->]].
    + split; [discriminate|]. intros [= -> ->]. now elim Hne.
Qed.

Lemma trimStart_split (s : string) :
  exists ws, allWhiteSpace ws = true /\ s = ws ++ JS.trimStart s.
Proof.
  induction s as [|c s (ws & W & E)]; simpl.
  - now exists EmptyString.
  - destruct (JS.isWhiteSpace c) eqn:C.
    + exists (String c ws). simpl. rewrite C, W. split; [reflexivity|].
      now rewrite <- E.
    + now exists EmptyString.
Qed.

Lemma trimStart_skips (ws : string) (c : ascii) (r : string) :
  allWhiteSpace ws = true -> JS.isWhiteSpace c = false ->
  JS.trimStart (ws ++ String c r) = String c r.
Proof.
  intros W C. induction ws as [|a ws IH]; simpl.
  - now rewrite C.
  - simpl in W. apply andb_true_iff in W as [A W]. rewrite A. now apply IH.
Qed.

Lemma uptoLastBrace_None (s : string) :
  uptoLastBrace s = None <-> hasClosingBrace s = false.
Proof.
  induction s as [|c s IH]; simpl; [tauto|].
  destruct (uptoLastBrace s) as [t|].
  - split; [discriminate|]. intros H. apply orb_false_iff in H as [_ H].
    apply IH in H. discriminate.
  - destruct (Ascii.eqb c "}"); simpl; [split; discriminate|].
    split; intros _; [now apply IH|reflexivity].
Qed.

Lemma uptoLastBrace_Some (s t : string) :
  uptoLastBrace s = Some t ->
  exists mid post,
    t = mid ++ "}" /\ s = mid ++ "}" ++ post /\ hasClosingBrace post = false.
Proof.
  revert t. induction s as [|c s IH]; intros t; simpl; [discriminate|].
  destruct (uptoLastBrace s) as [t'|] eqn:U.
  - intros [= <-]. destruct (IH t' eq_refl) as (mid & post & -> & -> & H).
    now exists (String c mid), post.
  - destruct (Ascii.eqb_spec c "}") as [->|]; [|discriminate].
    intros [= <-]. exists EmptyString, s. repeat split.
    now apply uptoLastBrace_None.
Qed.

Lemma hasClosingBrace_app (mid post : string) :
  hasClosingBrace (mid ++ "}" ++ post) = true.
Proof.
  change ("}" ++ post) with (String "}" post).
  induction mid as [|c mid IH]; cbn [append hasClosingBrace].
  - reflexivity.
  - rewrite IH. apply orb_true_r.
Qed.

Lemma matchHere_sound (s json : string) :
  matchHere s = Some json ->
  exists ws1 ws2 mid post,
    allWhiteSpace ws1 = true /\ allWhiteSpace ws2 = true
    /\ hasClosingBrace post = false
    /\ s = "journeysObj" ++ ws1 ++ "=" ++ ws2 ++ "{" ++ mid ++ "}" ++ post
    /\ json = "{" ++ mid ++ "}".
Proof.
  unfold matchHere.
  destruct (dropPrefix "journeysObj" s) as [r|] eqn:D; [|discriminate].
  apply dropPrefix_Some in D.
  destruct (trimStart_split r) as (ws1 & W1 & E1).
  destruct (JS.trimStart r) as [|c1 r2]; [discriminate|].
  destruct c1 as [[] [] [] [] [] [] [] []]; try discriminate.
  destruct (trimStart_split r2) as (ws2 & W2 & E2).
  destruct (JS.trimStart r2) as [|c2 r3]; [discriminate|].
  destruct c2 as [[] [] [] [] [] [] [] []]; try discriminate.
  destruct (uptoLastBrace r3) as [t|] eqn:U; [|discriminate].
  intros [= <-].
  destruct (uptoLastBrace_Some _ _ U) as (mid & post & -> & -> & B).
  exists ws1, ws2, mid, post. repeat split; try assumption.
  rewrite D, E1, E2. reflexivity.
Qed.

Lemma matchHere_complete (ws1 ws2 mid post : string) :
  allWhiteSpace ws1 = true -> allWhiteSpace ws2 = true ->
  exists json,
    matchHere ("journeysObj" ++ ws1 ++ "=" ++ ws2 ++ "{" ++ mid ++ "}" ++ post)
    = Some json.
Proof.
  intros W1 W2. unfold matchHere.
  rewrite (proj2 (dropPrefix_Some "journeysObj" _ _) eq_refl).
  change ("=" ++ ws2 ++ "{" ++ mid ++ "}" ++ post)
    with (String "=" (ws2 ++ String "{" (mid ++ "}" ++ post))).
  rewrite (trimStart_skips ws1 "=" _ W1 eq_refl).
  rewrite (trimStart_skips ws2 "{" _ W2 eq_refl).
  destruct (uptoLastBrace (mid ++ "}" ++ post)) as [t|] eqn:U.
  - eexists. reflexivity.
  - apply uptoLastBrace_None in U. rewrite hasClosingBrace_app in U.
    discriminate.
Qed.

Lemma matchJourneysObj_sound (s json : string) :
  matchJourneysObj s = Some json -> markerText s json.
Proof.
  induction s as [|c s IH].
  - cbn [matchJourneysObj]. destruct (matchHere EmptyString) eqn:M; [|discriminate].
    intros [= ->]. destruct (matchHere_sound _ _ M) as (w1 & w2 & m & p & H).
    exists EmptyString, w1, w2, m, p. exact H.
  - cbn [matchJourneysObj]. destruct (matchHere (String c s)) eqn:M.
    + intros [= ->]. destruct (matchHere_sound _ _ M) as (w1 & w2 & m & p & H).
      exists EmptyString, w1, w2, m, p. exact H.
    + intros H. destruct (IH H) as (pre & w1 & w2 & m & p & W1 & W2 & B & -> & ->).
      exists (String c pre), w1, w2, m, p. repeat split; assumption.
Qed.

Lemma matchJourneysObj_complete (pre suffix json : string) :
  matchHere suffix = Some json ->
  exists json', matchJourneysObj (pre ++ suffix) = Some json'.
Proof.
  intros M. induction pre as [|c pre IH].
  - exists json. destruct suffix; cbn [append matchJourneysObj]; now rewrite M.
  - cbn [append matchJourneysObj].
    destruct (matchHere (String c (pre ++ suffix))) as [g|].
    + now exists g.
    + exact IH.
Qed.

(** The expression matches somewhere exactly when the marker is there. *)
Lemma matchJourneysObj_None (payload : string) :
  matchJourneysObj payload = None <-> ~ markerPresent payload.
Proof.
  split.
  - intros N (pre & w1 & w2 & m & p & W1 & W2 & ->).
    destruct (matchHere_complete w1 w2 m p W1 W2) as [json M].
    destruct (matchJourneysObj_complete pre _ _ M) as [json' M'].
    congruence.
  - intros H. destruct (matchJourneysObj payload) as [json|] eqn:M; [|reflexivity].
    elim H. destruct (matchJourneysObj_sound _ _ M)
      as (pre & w1 & w2 & m & p & W1 & W2 & _ & E & _).
    now exists pre, w1, w2, m, p.
Qed.

(** *** [getBoardData] *)

(** C7, as the code has it: on a payload that arrived, board fetching
    fails with the format error exactly when the marker is absent or the
    text extracted from it is not valid JSON; it fails with the
    no-departures error exactly when the extracted text parses to an
    object whose [journey] is missing or falsy (null, false, 0, the
    empty string); in every other case it resolves with the value of
    [journey], which is the departures list whenever that value is a
    list. *)
Theorem getBoardData_outcomes
    (JSON_parse : string -> option Payload) (r : Reply) :
  error r = None ->
  let formatError :=
    Rejected (Error "Invalid response format from station board API") in
  let noDepartures := Rejected (Error "No departures data in response") in
  (getBoardData JSON_parse r = formatError <->
     ~ markerPresent (body r)
     \/ exists json, markerText (body r) json
          /\ matchJourneysObj (body r) = Some json /\ JSON_parse json = None)
  /\ (getBoardData JSON_parse r = noDepartures <->
        exists json data,
          matchJourneysObj (body r) = Some json
          /\ JSON_parse json = Some data
          /\ (journey data = None
              \/ exists v, journey data = Some v /\ truthyJson v = false))
  /\ (forall v,
        getBoardData JSON_parse r = Resolved v <->
        exists json data,
          matchJourneysObj (body r) = Some json
          /\ JSON_parse json = Some data
          /\ journey data = Some v /\ truthyJson v = true)
  /\ (forall departures,
        getBoardData JSON_parse r = Resolved (JList departures) <->
        exists json data,
          matchJourneysObj (body r) = Some json
          /\ JSON_parse json = Some data
          /\ journey data = Some (JList departures))
  /\ (getBoardData JSON_parse r = formatError
      \/ getBoardData JSON_parse r = noDepartures
      \/ exists v, getBoardData JSON_parse r = Resolved v).
Proof.
  intros E formatError noDepartures. subst formatError noDepartures.
  assert (Res : forall v,
        getBoardData JSON_parse r = Resolved v <->
        exists json data,
          matchJourneysObj (body r) = Some json
          /\ JSON_parse json = Some data
          /\ journey data = Some v /\ truthyJson v = true).
  { intros v. unfold getBoardData. rewrite E.
    destruct (matchJourneysObj (body r)) as [json|].
    2:{ split; [discriminate|]. intros (j & d & [=] & _). }
    destruct (JSON_parse json) as [data|] eqn:P.
    2:{ split; [discriminate|]. intros (j & d & [= <-] & P' & _). congruence. }
    destruct (journey data) as [w|] eqn:J.
    2:{ split; [discriminate|].
        intros (j & d & [= <-] & P' & J' & _). congruence. }
    destruct (truthyJson w) eqn:T.
    - split.
      + intros [= <-]. now exists json, data.
      + intros (j & d & [= <-] & P' & J' & _). congruence.
    - split; [discriminate|].
      intros (j & d & [= <-] & P' & J' & T'). congruence. }
  split; [|split; [|split; [exact Res|split]]].
  - unfold getBoardData. rewrite E.
    destruct (matchJourneysObj (body r)) as [json|] eqn:M.
    + pose proof (matchJourneysObj_sound _ _ M) as T.
      destruct (JSON_parse json) as [data|] eqn:P.
      * split.
        -- destruct (journey data) as [w|]; [destruct (truthyJson w)|];
             discriminate.
        -- intros [N|(j & _ & [= <-] & P')]; [|congruence].
           apply matchJourneysObj_None in N. congruence.
      * split; [|reflexivity]. intros _. right. now exists json.
    + split; [|reflexivity]. intros _. left. now apply matchJourneysObj_None.
  - unfold getBoardData. rewrite E.
    destruct (matchJourneysObj (body r)) as [json|] eqn:M.
    2:{ split; [discriminate|]. intros (j & d & [=] & _). }
    destruct (JSON_parse json) as [data|] eqn:P.
    2:{ split; [discriminate|]. intros (j & d & [= <-] & P' & _). congruence. }
    destruct (journey data) as [w|] eqn:J.
    + destruct (truthyJson w) eqn:T.
      * split; [discriminate|].
        intros (j & d & [= <-] & P' & [J'|(v & J' & T')]); congruence.
      * split; [|reflexivity]. intros _. exists json, data.
        repeat split; try assumption. right. now exists w.
    + split; [|reflexivity]. intros _. exists json, data.
      repeat split; try assumption. now left.
  - intros departures. rewrite Res. split.
    + intros (j & d & M & P & J & _). now exists j, d.
    + intros (j & d & M & P & J). now exists j, d.
  - unfold getBoardData. rewrite E.
    destruct (matchJourneysObj (body r)) as [json|]; [|now left].
    destruct (JSON_parse json) as [data|]; [|now left].
    destruct (journey data) as [w|]; [|right; now left].
    destruct (truthyJson w); [|right; now left].
    right. right. now exists w.
Qed.

(** *** The claims at concrete inputs *)

Lemma checkTrainDelay_not_found_iff_no_match_witness :
  getBoardData (parse_as (Some [rj840; rj84])) ok_reply = Resolved (JList [rj840; rj84])
  /\ checkTrainDelay (parse_as (Some [rj840; rj84])) (Resolved some_auth)
       ok_reply "1290401" "rj84" = Resolved (delayInfo rj84)
  /\ di_train (delayInfo rj84) = rj84.
Proof.
  split; [reflexivity|].
  destruct (checkTrainDelay_not_found_iff_no_match
              (parse_as (Some [rj840; rj84])) some_auth ok_reply [rj840; rj84]
              "1290401" "rj84" eq_refl) as (_ & _ & H).
  apply (H [rj840] rj84 []); [reflexivity|reflexivity|].
  intros x [<-|[]]. reflexivity.
Defined.

Lemma trackTrainJourney_keeps_station_order_witness :
  [2; 0; 1]%nat ≡ₚ seq 0 (length stationIds_ex)
  /\ exists cps,
       trackTrainJourney (parse_as (Some [rj840; rj84])) CEST (Resolved some_auth)
         lookups_ex [2; 0; 1]%nat "RJ 84" stationIds_ex = Some (Resolved cps)
       /\ stationId <$> cps = stationIds_ex.
Proof.
  assert (P : [2; 0; 1]%nat ≡ₚ seq 0 (length stationIds_ex))
    by exact (Permutation_cons_append [0; 1]%nat 2%nat).
  split; [exact P|].
  destruct (trackTrainJourney_keeps_station_order
              (parse_as (Some [rj840; rj84])) CEST some_auth lookups_ex
              [2; 0; 1]%nat "RJ 84" stationIds_ex P) as (cps & R & _ & S & _).
  exists cps. split; assumption.
Defined.

Lemma trackTrainJourney_isolates_station_failures_witness :
  [2; 0; 1]%nat ≡ₚ seq 0 (length stationIds_ex)
  /\ exists cps,
       trackTrainJourney (parse_as (Some [rj840; rj84])) CEST (Resolved some_auth)
         lookups_ex [2; 0; 1]%nat "RJ 84" stationIds_ex = Some (Resolved cps)
       /\ length cps = 3%nat
       /\ cps !! 1%nat = Some (Failed "8100008" "ETIMEDOUT")
       /\ exists c, cps !! 2%nat = Some c
            /\ stationPromise (parse_as (Some [rj840; rj84])) CEST "RJ 84"
                 "8100013" (lookups_ex 2) = Resolved c.
Proof.
  assert (P : [2; 0; 1]%nat ≡ₚ seq 0 (length stationIds_ex))
    by exact (Permutation_cons_append [0; 1]%nat 2%nat).
  split; [exact P|].
  destruct (trackTrainJourney_isolates_station_failures
              (parse_as (Some [rj840; rj84])) CEST some_auth lookups_ex
              [2; 0; 1]%nat "RJ 84" stationIds_ex P) as (cps & R & L & H).
  exists cps. split; [exact R|]. split; [exact L|]. split.
  - exact (proj1 (H 1%nat "8100008" eq_refl)).
  - destruct (H 2%nat "8100013" eq_refl) as (c & Hc & Hs & _).
    exists c. split; assumption.
Defined.

Lemma trackTrainJourney_departed_iff_status_witness :
  trackTrainJourney (parse_as (Some [rj840; rj84])) CEST (Resolved some_auth)
    lookups_ex [2; 0; 1]%nat "RJ 84" stationIds_ex = Some (Resolved cps_ex)
  /\ exists c, cps_ex !! 0%nat = Some c /\ found c = true
       /\ departed c = Some (statusIs c "departed").
Proof.
  split; [vm_compute; reflexivity|].
  eexists. split; [reflexivity|]. split; [reflexivity|].
  eapply (trackTrainJourney_departed_iff_status
            (parse_as (Some [rj840; rj84])) CEST (Resolved some_auth) lookups_ex
            [2; 0; 1]%nat "RJ 84" stationIds_ex cps_ex 0%nat).
  - vm_compute. reflexivity.
  - reflexivity.
  - reflexivity.
Defined.

Lemma status_derivation_on_todays_schedule_witness :
  scheduledInstant CEST noon_7_May "21:10" = Some sched_2110
  /\ statusOf (checkStation CEST "RJ 84" "1290401" (sched_2110 - 60000)
                 noon_7_May [rj84]) = Some "scheduled"
  /\ statusOf (checkStation CEST "RJ 84" "1290401" (sched_2110 + 5 * 60000)
                 noon_7_May [rj84]) = Some "departed"
  /\ statusOf (checkStation CEST "RJ 84" "1290401" (sched_2110 - 60000)
                 noon_7_May [rj84_late10]) = Some "delayed"
  /\ statusOf (checkStation CEST "RJ 84" "1290401" (sched_2110 + 15 * 60000)
                 noon_7_May [rj84_late10]) = Some "departed".
Proof.
  split; [vm_compute; reflexivity|].
  destruct (status_derivation_on_todays_schedule CEST "RJ 84" "1290401"
              noon_7_May [rj84] rj84 "21:10" sched_2110
              eq_refl eq_refl eq_refl) as (D & _ & H & _).
  destruct (status_derivation_on_todays_schedule CEST "RJ 84" "1290401"
              noon_7_May [rj84_late10] rj84_late10 "21:10" sched_2110
              eq_refl eq_refl eq_refl) as (_ & _ & _ & H10).
  destruct (H eq_refl eq_refl) as [H1 H2].
  destruct (H10 eq_refl eq_refl ltac:(vm_compute; discriminate)) as [H3 H4].
  repeat split; assumption.
Defined.

Lemma zero_delay_field_counts_as_delayed_witness :
  find (matchesTrack "RJ 84") [rj84_zero] = Some rj84_zero
  /\ ti rj84_zero = Some "21:10"
  /\ rtField dlm rj84_zero = Some "0"
  /\ exists c,
       checkStation CEST "RJ 84" "1290401" noon_7_May noon_7_May [rj84_zero]
         = Resolved c
       /\ found c = true
       /\ delayMinutes c = Some (Some 0)
       /\ status c <> Some "scheduled"
       /\ (departed c = Some false -> status c = Some "delayed").
Proof.
  repeat (split; [reflexivity|]).
  exact (zero_delay_field_counts_as_delayed CEST "RJ 84" "1290401"
           noon_7_May noon_7_May [rj84_zero] rj84_zero "21:10"
           eq_refl eq_refl eq_refl).
Defined.

Lemma getBoardData_outcomes_witness :
  error ok_reply = None
  /\ (getBoardData (parse_as None) ok_reply
        = Rejected (Error "No departures data in response")
      <-> exists json data,
            matchJourneysObj (body ok_reply) = Some json
            /\ parse_as None json = Some data
            /\ (journey data = None
                \/ exists v, journey data = Some v /\ truthyJson v = false)).
Proof.
  split; [reflexivity|].
  pose proof (getBoardData_outcomes (parse_as None) ok_reply eq_refl) as H.
  cbv zeta in H. exact (proj1 (proj2 H)).
Defined.

(** C7, counterexample: a payload that parses to an object whose
    [journey] is the string "x", the number 1 or an object carries no
    departures list, yet board fetching resolves, with that value; the
    delay check then fails on it with a TypeError. *)
Lemma truthy_journey_resolves_without_list :
  getBoardData (parse_journey (JString "x")) ok_reply = Resolved (JString "x")
  /\ getBoardData (parse_journey (JNumber 1)) ok_reply = Resolved (JNumber 1)
  /\ getBoardData (parse_journey JObject) ok_reply = Resolved JObject
  /\ getBoardData (parse_journey (JString "x")) ok_reply
     <> Rejected (Error "No departures data in response")
  /\ checkTrainDelay (parse_journey (JString "x")) (Resolved some_auth)
       ok_reply "1290401" "RJ 84"
     = Rejected (TypeError "departures.find is not a function").
Proof. repeat split. discriminate. Qed.

(** C4, counterexample: at noon, the 21:10 departure with the delay
    field "0" has not left, and its status is 'delayed', not
    'scheduled'. *)
Lemma zero_delay_field_is_not_scheduled :
  rtField dlm rj84_zero = Some "0"
  /\ checkStation CEST "RJ 84" "1290401" noon_7_May noon_7_May [rj84_zero]
     = Resolved (Found "1290401" rj84_zero "delayed" "07.05.2025 21:10"
                       "07.05.2025 21:10" (Some 0) "7A-B" false)
  /\ statusOf (checkStation CEST "RJ 84" "1290401" noon_7_May noon_7_May
                 [rj84_zero]) <> Some "scheduled".
Proof.
  split; [reflexivity|]. split; [vm_compute; reflexivity|].
  vm_compute. discriminate.
Qed.

(** C3, counterexample: one minute before a departure scheduled for
    08.05.2025 00:00, without delay, the status is 'departed'; and two
    records with the same scheduled date and time and the same delay of
    0 minutes have, at the same instant, different statuses. *)
Lemma status_is_no_function_of_date_time_delay_now :
  (da rj_midnight = Some "08.05.2025" /\ ti rj_midnight = Some "00:00"
   /\ spec_combine CEST "08.05.2025" "00:00" = Some (late_7_May + 60000)
   /\ checkStation CEST "RJ 84" "1290401" late_7_May late_7_May [rj_midnight]
      = Resolved (Found "1290401" rj_midnight "departed" "08.05.2025 00:00"
                        "08.05.2025 00:00" (Some 0) "7A-B" true))
  /\ (da rj84 = da rj84_zero /\ ti rj84 = ti rj84_zero
      /\ checkStation CEST "RJ 84" "1290401" noon_7_May noon_7_May [rj84]
         = Resolved (Found "1290401" rj84 "scheduled" "07.05.2025 21:10"
                           "07.05.2025 21:10" (Some 0) "7A-B" false)
      /\ checkStation CEST "RJ 84" "1290401" noon_7_May noon_7_May [rj84_zero]
         = Resolved (Found "1290401" rj84_zero "delayed" "07.05.2025 21:10"
                           "07.05.2025 21:10" (Some 0) "7A-B" false)).
Proof. repeat split; vm_compute; reflexivity. Qed.

(** C5, counterexample: at noon of 07.05.2025 a record scheduled for
    08.05.2025 10:00 is evaluated at 07.05.2025 10:00, twenty-four hours
    before the instant its date and time name, and is reported departed
    while that instant is still ahead. *)
Lemma scheduled_instant_ignores_scheduledDate :
  da rj_tomorrow = Some "08.05.2025" /\ ti rj_tomorrow = Some "10:00"
  /\ spec_combine CEST "08.05.2025" "10:00"
     = Some (noon_7_May + 22 * 3600000)
  /\ scheduledInstant CEST noon_7_May "10:00" = Some (noon_7_May - 2 * 3600000)
  /\ scheduledInstant CEST noon_7_May "10:00"
     <> spec_combine CEST "08.05.2025" "10:00"
  /\ checkStation CEST "RJ 84" "1290401" noon_7_May noon_7_May [rj_tomorrow]
     = Resolved (Found "1290401" rj_tomorrow "departed" "08.05.2025 10:00"
                       "08.05.2025 10:00" (Some 0) "7A-B" true).
Proof.
  repeat split; try (vm_compute; reflexivity).
  vm_compute. discriminate.
Qed.

(** *** The platform functions on sample inputs *)

Example toLowerCase_ex :
  JS.toLowerCase "RJ 840" = "rj 840"
  /\ JS.toLowerCase (String (ascii_of_N 214) "BB") = String (ascii_of_N 246) "bb".
Proof. split; reflexivity. Qed.

Example removeWhitespace_ex : JS.removeWhitespace " R  J 8 40 " = "RJ840".
Proof. reflexivity. Qed.

Example split_ex :
  JS.split ":" "20:58" = ["20"; "58"]
  /\ JS.split ":" EmptyString = [EmptyString]
  /\ JS.split ":" "7:" = ["7"; EmptyString].
Proof. repeat split. Qed.

Example parseInt_ex :
  JS.parseInt "08" = Some 8 /\ JS.parseInt " -12abc" = Some (-12)
  /\ JS.parseInt "0x1f" = Some 31 /\ JS.parseInt EmptyString = None
  /\ JS.parseInt "undefined" = None /\ JS.parseInt "0" = Some 0.
Proof. repeat split. Qed.

Example daysFromCivil_ex :
  daysFromCivil 1970 1 1 = 0 /\ daysFromCivil 2025 5 7 = 20215
  /\ daysFromCivil 2024 2 29 = 19782 /\ daysFromCivil 2000 3 1 = 11017.
Proof. repeat split. Qed.

Example matchJourneysObj_ex :
  matchJourneysObj "x journeysObj  = {a} ; }  y" = Some "{a} ; }"
  /\ matchJourneysObj "journeysObj journeysObj={}" = Some "{}"
  /\ matchJourneysObj "journeysObj = [1]" = None.
Proof. repeat split. Qed.

Example Promise_all_ex :
  Promise_all [Resolved 1; Resolved 2; Resolved 3] [2; 0; 1]%nat
    = Some (Resolved [1; 2; 3])
  /\ Promise_all [Resolved 1; Rejected (Error "x"); Resolved 3] [2; 1; 0]%nat
     = Some (Rejected (Error "x"))
  /\ Promise_all [Resolved 1; Resolved 2] [0]%nat = None.
Proof. repeat split. Qed.

(** The example of the specification: on [departed, departed,
    scheduled, not_found] the last departure is the second station and
    the next arrival the third. *)
Example inferJourney_ex :
  inferJourney
    [Found "S0" rj84 "departed" "d0" "a0" (Some 0) "1" true;
     Found "S1" rj84 "departed" "d1" "a1" (Some 0) "1" true;
     Found "S2" rj84 "scheduled" "d2" "a2" (Some 0) "1" false;
     NotFound "S3"]
  = (Some {| m_stationId := "S1"; m_time := Some "a1" |},
     Some {| m_stationId := "S2"; m_time := Some "a2" |})
  /\ currentStatus [NotFound "S0"; Failed "S1" "ETIMEDOUT"] = Undetermined.
Proof. split; reflexivity. Qed.

(** ** Further properties of the code *)

(** *** The matching rule, continued *)

Lemma clause2_clause1 (trainName : string) (d : Departure) :
  clause2 trainName d = true -> clause1 trainName d = true.
Proof.
  unfold clause2, clause1. destruct (pr d) as [p|]; [|discriminate].
  intros H. apply String.eqb_eq in H. subst p. unfold JS.orElse.
  destruct (String.eqb_spec trainName EmptyString) as [->|_];
    apply String.eqb_refl.
Qed.

Lemma anyClause_two (trainName : string) (d : Departure) :
  anyClause trainName d = clause1 trainName d || clause3 trainName d.
Proof.
  unfold anyClause. pose proof (clause2_clause1 trainName d) as H.
  destruct (clause1 trainName d), (clause2 trainName d); try reflexivity.
  now discriminate H.
Qed.

Lemma anyClause_lower (n1 n2 : string) (d : Departure) :
  JS.toLowerCase n1 = JS.toLowerCase n2 -> anyClause n1 d = anyClause n2 d.
Proof.
  intros H. rewrite !anyClause_two. unfold clause1, clause3. now rewrite H.
Qed.

Lemma find_ext_bool {A : Type} (f g : A -> bool) (l : list A) :
  (forall x, f x = g x) -> find f l = find g l.
Proof.
  intros H. induction l as [|a l IH]; simpl; [reflexivity|].
  now rewrite H, IH.
Qed.

(** X1.  A record that satisfies the exact-equality clause satisfies the
    normalised-equality clause as well, so that the rule of both lookups
    comes down to clause 1 or clause 3. *)
Theorem exact_equality_clause_is_subsumed (trainName : string) (d : Departure) :
  (clause2 trainName d = true -> clause1 trainName d = true)
  /\ matchesTrack trainName d = clause1 trainName d || clause3 trainName d
  /\ matchesDelay trainName d = clause1 trainName d || clause3 trainName d.
Proof.
  split; [apply clause2_clause1|]. split.
  - apply anyClause_two.
  - rewrite matchesDelay_clauses. apply anyClause_two.
Qed.

(** X2.  Two query labels that differ in letter case only select the
    same record on every board, in both lookups. *)
Theorem lookup_ignores_case_of_query (n1 n2 : string) (departures : list Departure) :
  JS.toLowerCase n1 = JS.toLowerCase n2 ->
  find (matchesTrack n1) departures = find (matchesTrack n2) departures
  /\ find (matchesDelay n1) departures = find (matchesDelay n2) departures.
Proof.
  intros H. split.
  - apply find_ext_bool. intros d. now apply anyClause_lower.
  - apply find_ext_bool. intros d. rewrite !matchesDelay_clauses.
    now apply anyClause_lower.
Qed.

Lemma lookup_ignores_case_of_query_witness :
  JS.toLowerCase "rj 84" = JS.toLowerCase "Rj 84"
  /\ find (matchesTrack "rj 84") [rj840; rj84]
     = find (matchesTrack "Rj 84") [rj840; rj84]
  /\ find (matchesDelay "rj 84") [rj840; rj84]
     = find (matchesDelay "Rj 84") [rj840; rj84].
Proof.
  split; [reflexivity|].
  exact (lookup_ignores_case_of_query "rj 84" "Rj 84" [rj840; rj84] eq_refl).
Defined.

Lemma startsWith_spec (s p : string) :
  JS.startsWith s p = true <-> exists post, s = p ++ post.
Proof.
  revert s. induction p as [|a p IH]; intros s.
  - split; [intros _; now exists s|intros _; now destruct s].
  - destruct s as [|b s]; cbn [JS.startsWith].
    + split; [discriminate|]. intros [post H]. discriminate.
    + rewrite andb_true_iff, IH. split.
      * intros [E [post ->]]. apply Ascii.eqb_eq in E. subst b. now exists post.
      * intros [post [= -> ->]]. split; [apply Ascii.eqb_refl|now exists post].
Qed.

Lemma includes_spec (s t : string) :
  JS.includes s t = true <-> exists pre post, s = pre ++ t ++ post.
Proof.
  induction s as [|c s IH]; cbn [JS.includes]; rewrite orb_true_iff.
  - rewrite startsWith_spec. split.
    + intros [[post H]|H]; [|discriminate]. now exists EmptyString, post.
    + intros (pre & post & H). left. destruct pre; [|discriminate].
      now exists post.
  - rewrite startsWith_spec, IH. split.
    + intros [[post H]|(pre & post & ->)].
      * now exists EmptyString, post.
      * now exists (String c pre), post.
    + intros (pre & post & H). destruct pre as [|a pre].
      * left. now exists post.
      * right. injection H as -> ->. now exists pre, post.
Qed.

(** X3.  Clause 3 holds exactly for the records with a non-empty label
    whose lower-case form contains the lower-case form of the query as a
    contiguous piece. *)
Theorem substring_clause_meaning (trainName : string) (d : Departure) :
  clause3 trainName d = true <->
  exists label pre post,
    pr d = Some label /\ label <> EmptyString
    /\ JS.toLowerCase label = pre ++ JS.toLowerCase trainName ++ post.
Proof.
  unfold clause3. rewrite andb_true_iff, includes_spec. split.
  - intros [T (pre & post & H)]. destruct (pr d) as [label|]; [|discriminate].
    exists label, pre, post. simpl in T, H. repeat split; [|exact H].
    intros ->. discriminate.
  - intros (label & pre & post & -> & N & H). split.
    + simpl. now destruct (String.eqb_spec label EmptyString).
    + now exists pre, post.
Qed.

Lemma anyClause_empty_query (d : Departure) : anyClause EmptyString d = true.
Proof.
  rewrite anyClause_two. unfold clause1, clause3, JS.truthy, JS.orElse.
  destruct (pr d) as [p|]; [|reflexivity].
  destruct (String.eqb_spec p EmptyString) as [->|_]; [reflexivity|].
  cbn [negb andb JS.tpl JS.toLowerCase].
  replace (JS.includes (JS.toLowerCase p) EmptyString) with true;
    [apply orb_true_r|].
  symmetry. apply includes_spec. now exists EmptyString, (JS.toLowerCase p).
Qed.

(** X4.  The empty train label matches every record: on a board that is
    not empty [checkTrainDelay] resolves with the first departure, and
    the handler of [trackTrainJourney] picks that record as well. *)
Theorem empty_label_selects_first_departure
    (JSON_parse : string -> option Payload) (a : Auth) (r : Reply)
    (station : string) (d : Departure) (rest : list Departure) :
  getBoardData JSON_parse r = Resolved (JList (d :: rest)) ->
  checkTrainDelay JSON_parse (Resolved a) r station EmptyString
    = Resolved (delayInfo d)
  /\ find (matchesTrack EmptyString) (d :: rest) = Some d.
Proof.
  intros H. unfold checkTrainDelay. cbn [then_]. rewrite H.
  cbn [then_ findOn find].
  change (matchesTrack EmptyString d) with (anyClause EmptyString d).
  rewrite matchesDelay_clauses, anyClause_empty_query.
  split; reflexivity.
Qed.

Lemma empty_label_selects_first_departure_witness :
  getBoardData (parse_as (Some [rj840; rj84])) ok_reply = Resolved (JList [rj840; rj84])
  /\ checkTrainDelay (parse_as (Some [rj840; rj84])) (Resolved some_auth)
       ok_reply "1290401" EmptyString = Resolved (delayInfo rj840)
  /\ find (matchesTrack EmptyString) [rj840; rj84] = Some rj840.
Proof.
  split; [reflexivity|].
  exact (empty_label_selects_first_departure (parse_as (Some [rj840; rj84]))
           some_auth ok_reply "1290401" rj840 [rj84] eq_refl).
Defined.

(** *** [checkTrainDelay] and the single-station calls, continued *)

Lemma delayInfo_flags_aux (t : Departure) :
  (isDelayed (delayInfo t) = true <->
     exists n, JS.truthy (rtField dlm t) = true
       /\ JS.parseInt (JS.tpl (rtField dlm t)) = Some n /\ 0 < n)
  /\ (canceled (delayInfo t) = true <-> rtField rt_status t = Some "Ausfall").
Proof.
  unfold delayInfo. cbn [isDelayed canceled]. split.
  - destruct (JS.truthy (rtField dlm t)).
    + destruct (JS.parseInt (JS.tpl (rtField dlm t))) as [n|]; cbn [JS.gt].
      * rewrite Z.ltb_lt. split.
        -- intros H. now exists n.
        -- intros (m & _ & [= <-] & H). exact H.
      * split; [discriminate|]. intros (m & _ & [=] & _).
    + cbn [JS.gt]. split; [discriminate|]. intros (m & [=] & _).
  - unfold JS.truthy. destruct (rtField rt_status t) as [s|].
    + destruct (String.eqb_spec s EmptyString) as [->|N]; cbn [negb].
      * split; [discriminate|]. intros [=].
      * rewrite String.eqb_eq. split; [now intros ->|now intros [= ->]].
    + split; discriminate.
Qed.

(** X5.  [isDelayed] is true exactly when the delay field is non-empty
    and reads as a positive number, [canceled] exactly when the realtime
    status is "Ausfall"; a record without realtime data is on time, with
    the scheduled departure as actual departure. *)
Theorem delayInfo_flags (t : Departure) :
  (isDelayed (delayInfo t) = true <->
     exists n, JS.truthy (rtField dlm t) = true
       /\ JS.parseInt (JS.tpl (rtField dlm t)) = Some n /\ 0 < n)
  /\ (canceled (delayInfo t) = true <-> rtField rt_status t = Some "Ausfall")
  /\ (rt t = None ->
      isDelayed (delayInfo t) = false
      /\ di_delayMinutes (delayInfo t) = Some 0
      /\ di_actualDeparture (delayInfo t) = di_scheduledDeparture (delayInfo t)
      /\ di_status (delayInfo t) = None
      /\ canceled (delayInfo t) = false).
Proof.
  unfold delayInfo. cbn [isDelayed canceled di_delayMinutes di_actualDeparture
                         di_scheduledDeparture di_status].
  split; [|split].
  - destruct (JS.truthy (rtField dlm t)).
    + destruct (JS.parseInt (JS.tpl (rtField dlm t))) as [n|]; cbn [JS.gt].
      * rewrite Z.ltb_lt. split.
        -- intros H. now exists n.
        -- intros (m & _ & [= <-] & H). exact H.
      * split; [discriminate|]. intros (m & _ & [=] & _).
    + cbn [JS.gt]. split; [discriminate|]. intros (m & [=] & _).
  - unfold JS.truthy. destruct (rtField rt_status t) as [s|].
    + destruct (String.eqb_spec s EmptyString) as [->|N]; cbn [negb].
      * split; [discriminate|]. intros [=].
      * rewrite String.eqb_eq. split; [now intros ->|now intros [= ->]].
    + split; discriminate.
  - intros H. unfold rtField. rewrite H. repeat split.
Qed.

Lemma delayInfo_flags_witness :
  rt rj84 = None
  /\ isDelayed (delayInfo rj84) = false
  /\ di_delayMinutes (delayInfo rj84) = Some 0
  /\ di_actualDeparture (delayInfo rj84) = di_scheduledDeparture (delayInfo rj84)
  /\ di_status (delayInfo rj84) = None
  /\ canceled (delayInfo rj84) = false.
Proof.
  split; [reflexivity|].
  exact (proj2 (proj2 (delayInfo_flags rj84)) eq_refl).
Defined.

(** X6.  When the board of the station cannot be had, [checkTrainDelay]
    and [getTrainDepartures] reject with the very error of the board
    lookup, whereas the station promise of [trackTrainJourney] is
    fulfilled with a checkpoint that records its message. *)
Theorem board_errors_propagate_in_single_station_calls
    (JSON_parse : string -> option Payload) (tza : TimeZone) (a : Auth) (r : Reply)
    (e : JsError) (station trainNumber : string) (now today : Z) :
  getBoardData JSON_parse r = Rejected e ->
  checkTrainDelay JSON_parse (Resolved a) r station trainNumber = Rejected e
  /\ getTrainDepartures JSON_parse (Resolved a) r = Rejected e
  /\ stationPromise JSON_parse tza trainNumber station
       {| reply := r; now := now; today := today |}
     = Resolved (Failed station (message e)).
Proof.
  intros H. unfold checkTrainDelay, getTrainDepartures, stationPromise.
  cbn [then_ reply]. rewrite H. repeat split.
Qed.

Lemma board_errors_propagate_in_single_station_calls_witness :
  getBoardData (parse_as None) failing_reply = Rejected (Error "ETIMEDOUT")
  /\ checkTrainDelay (parse_as None) (Resolved some_auth) failing_reply
       "1290401" "RJ 84" = Rejected (Error "ETIMEDOUT")
  /\ getTrainDepartures (parse_as None) (Resolved some_auth) failing_reply
     = Rejected (Error "ETIMEDOUT")
  /\ stationPromise (parse_as None) CEST "RJ 84" "1290401"
       {| reply := failing_reply; now := noon_7_May; today := noon_7_May |}
     = Resolved (Failed "1290401" (message (Error "ETIMEDOUT"))).
Proof.
  split; [reflexivity|].
  exact (board_errors_propagate_in_single_station_calls (parse_as None) CEST
           some_auth failing_reply (Error "ETIMEDOUT") "1290401" "RJ 84"
           noon_7_May noon_7_May eq_refl).
Defined.

(** X7.  When [authenticate()] fails, every call of the library rejects
    with the error of the authentication, whatever the replies to the
    later requests would have been. *)
Theorem authentication_errors_propagate
    (JSON_parse : string -> option Payload) (tza : TimeZone) (e : JsError)
    (r : Reply) (sr : StationsReply) (lookups : nat -> Lookup)
    (order : list nat) (station label : string) (count : Z)
    (stationIds : list string) :
  searchStations (Rejected e) sr label count = Rejected e
  /\ snd (searchAndDisplayStations (Rejected e) sr label) = Rejected e
  /\ getTrainDepartures JSON_parse (Rejected e) r = Rejected e
  /\ checkTrainDelay JSON_parse (Rejected e) r station label = Rejected e
  /\ trackTrainJourney JSON_parse tza (Rejected e) lookups order label stationIds
     = Some (Rejected e).
Proof. repeat split. Qed.

(** X8.  On one and the same board, the delay check and the handler of
    the track call pick the same record: the delay check fails with the
    not-found error exactly when the checkpoint is the not-found one,
    and otherwise the checkpoint, when the record has a time, carries
    the record and the delay minutes of the delay check. *)
Theorem delay_check_and_track_agree
    (JSON_parse : string -> option Payload) (tza : TimeZone) (a : Auth) (r : Reply)
    (departures : list Departure) (station label : string) (now today : Z) :
  getBoardData JSON_parse r = Resolved (JList departures) ->
  (checkTrainDelay JSON_parse (Resolved a) r station label
     = Rejected (Error ("Train " ++ label ++ " not found at station " ++ station))
   <-> checkStation tza label station now today departures
       = Resolved (NotFound station))
  /\ forall info,
       checkTrainDelay JSON_parse (Resolved a) r station label = Resolved info ->
       match checkStation tza label station now today departures with
       | Resolved c =>
           found c = true /\ train c = Some (di_train info)
           /\ delayMinutes c = Some (di_delayMinutes info)
       | Rejected _ => ti (di_train info) = None
       end.
Proof.
  intros H. unfold checkTrainDelay, checkStation. cbn [then_]. rewrite H.
  cbn [then_ findOn]. rewrite matchesDelay_ext.
  change (find (anyClause label) departures)
    with (find (matchesTrack label) departures).
  destruct (find (matchesTrack label) departures) as [t|].
  - split.
    + split; [discriminate|]. destruct (ti t); discriminate.
    + intros info [= <-]. cbn [di_train delayInfo].
      destruct (ti t) as [tm|] eqn:T; [|reflexivity].
      cbn [found train delayMinutes di_delayMinutes delayInfo].
      repeat split.
  - split; [split; reflexivity|]. discriminate.
Qed.

Lemma delay_check_and_track_agree_witness :
  getBoardData (parse_as (Some [rj840; rj84_zero])) ok_reply
    = Resolved (JList [rj840; rj84_zero])
  /\ match checkStation CEST "rj84" "1290401" noon_7_May noon_7_May
             [rj840; rj84_zero] with
     | Resolved c =>
         found c = true /\ train c = Some (di_train (delayInfo rj84_zero))
         /\ delayMinutes c = Some (di_delayMinutes (delayInfo rj84_zero))
     | Rejected _ => ti (di_train (delayInfo rj84_zero)) = None
     end.
Proof.
  split; [reflexivity|].
  exact (proj2 (delay_check_and_track_agree
                  (parse_as (Some [rj840; rj84_zero])) CEST some_auth ok_reply
                  [rj840; rj84_zero] "1290401" "rj84" noon_7_May noon_7_May
                  eq_refl)
               (delayInfo rj84_zero) eq_refl).
Defined.

(** *** [trackTrainJourney], continued *)

Lemma settleAll_length {A : Type} (ps : list (Promise A)) (order : list nat) :
  forall (values : list (option A)) (remaining : nat) (vs : list A),
    settleAll ps order values remaining = Some (Resolved vs) ->
    length vs = length values.
Proof.
  induction order as [|i rest IH]; intros values remaining vs; simpl.
  - discriminate.
  - destruct (ps !! i) as [[v|e]|].
    + destruct remaining as [|[|n]].
      * intros H. apply IH in H. now rewrite length_insert in H.
      * destruct (mapM id (<[i:=Some v]> values)) as [ws|] eqn:M; [|discriminate].
        intros [= <-]. apply length_mapM in M. now rewrite length_insert in M.
      * intros H. apply IH in H. now rewrite length_insert in H.
    + discriminate.
    + apply IH.
Qed.

(** Whenever the call resolves, the checkpoint at a position is the one
    the station promise of that position was fulfilled with. *)
Lemma trackTrainJourney_element (JSON_parse : string -> option Payload)
    (tza : TimeZone) (auth : Promise Auth) (lookups : nat -> Lookup) (order : list nat)
    (trainName : string) (stationIds : list string)
    (cps : list Checkpoint) :
  trackTrainJourney JSON_parse tza auth lookups order trainName stationIds
    = Some (Resolved cps) ->
  length cps = length stationIds
  /\ forall i c, cps !! i = Some c ->
       exists sid, stationIds !! i = Some sid
         /\ stationPromise JSON_parse tza trainName sid (lookups i) = Resolved c.
Proof.
  unfold trackTrainJourney. destruct auth as [a|e]; [|discriminate].
  unfold Promise_all.
  set (ps := imap (fun i sid => stationPromise JSON_parse tza trainName sid
                                  (lookups i)) stationIds).
  assert (Lps : length ps = length stationIds) by apply length_imap.
  intros H. destruct ps as [|p ps'] eqn:Eps.
  - injection H as <-. split; [now rewrite <- Lps|]. intros i c Hc. discriminate.
  - rewrite <- Eps in *. split.
    + apply settleAll_length in H. rewrite H, length_replicate. exact Lps.
    + intros i c Hc.
      assert (Hp : ps !! i = Some (Resolved c)).
      { apply (settleAll_sound ps order (replicate (length ps) None)
                 (length ps) cps); [|exact H|exact Hc].
        intros j v Hj. apply lookup_replicate in Hj as [? _]. discriminate. }
      subst ps. apply list_lookup_imap_Some in Hp as (sid & Hs & Hp).
      exists sid. split; [exact Hs|]. now symmetry.
Qed.

Lemma checkStation_status (tza : TimeZone) (trainName sid : string) (now today : Z)
    (departures : list Departure) (c : Checkpoint) :
  checkStation tza trainName sid now today departures = Resolved c ->
  (found c = true /\ (status c = Some "scheduled" \/ status c = Some "delayed"
                      \/ status c = Some "departed"))
  \/ c = NotFound sid.
Proof.
  unfold checkStation.
  destruct (find (matchesTrack trainName) departures) as [t|].
  - destruct (ti t) as [tm|]; [|discriminate]. intros [= <-]. left.
    split; [reflexivity|]. cbn [status].
    match goal with
    | |- context [if ?b then "departed" else _] => destruct b
    end; [now right; right|].
    destruct (JS.truthy (rtField dlm t)); [now right; left|now left].
  - intros [= <-]. now right.
Qed.

(** X9.  Whenever a track call resolves, in whatever order its lookups
    settled, the list has one checkpoint per station id and the
    checkpoint at each position carries the station id of that position;
    a checkpoint with [found: true] has status 'scheduled', 'delayed' or
    'departed', and one with [found: false] has status 'not_found' or
    records an error. *)
Theorem returned_checkpoints_are_well_formed
    (JSON_parse : string -> option Payload) (tza : TimeZone) (auth : Promise Auth)
    (lookups : nat -> Lookup) (order : list nat)
    (trainName : string) (stationIds : list string)
    (cps : list Checkpoint) (i : nat) (c : Checkpoint) :
  trackTrainJourney JSON_parse tza auth lookups order trainName stationIds
    = Some (Resolved cps) ->
  cps !! i = Some c ->
  length cps = length stationIds
  /\ stationIds !! i = Some (stationId c)
  /\ ((found c = true
       /\ (status c = Some "scheduled" \/ status c = Some "delayed"
           \/ status c = Some "departed"))
      \/ c = NotFound (stationId c)
      \/ exists msg, c = Failed (stationId c) msg).
Proof.
  intros H Hc. destruct (trackTrainJourney_element _ _ _ _ _ _ _ _ H) as [L E].
  destruct (E i c Hc) as (sid & Hs & Hp). split; [exact L|].
  destruct (stationPromise_fulfilled JSON_parse tza trainName sid (lookups i))
    as (c' & Hc' & Hid).
  assert (c' = c) by congruence. subst c'. rewrite Hid. split; [exact Hs|].
  unfold stationPromise in Hp.
  destruct (getBoardData JSON_parse (reply (lookups i)) >>= findOn)
    as [departures|e];
    cbn [then_ catch_] in Hp.
  - destruct (checkStation tza trainName sid (now (lookups i))
                (today (lookups i)) departures) as [c'|e] eqn:C;
      cbn [catch_] in Hp; injection Hp as <-.
    + destruct (checkStation_status _ _ _ _ _ _ _ C) as [F| ->];
        [now left|now right; left].
    + right. right. now eexists.
  - injection Hp as <-. right. right. now eexists.
Qed.

Lemma returned_checkpoints_are_well_formed_witness :
  trackTrainJourney (parse_as (Some [rj840; rj84])) CEST (Resolved some_auth)
    lookups_ex [2; 0; 1]%nat "RJ 84" stationIds_ex = Some (Resolved cps_ex)
  /\ exists c, cps_ex !! 1%nat = Some c
       /\ length cps_ex = length stationIds_ex
       /\ stationIds_ex !! 1%nat = Some (stationId c)
       /\ ((found c = true
            /\ (status c = Some "scheduled" \/ status c = Some "delayed"
                \/ status c = Some "departed"))
           \/ c = NotFound (stationId c)
           \/ exists msg, c = Failed (stationId c) msg).
Proof.
  split; [vm_compute; reflexivity|].
  eexists. split; [reflexivity|].
  eapply (returned_checkpoints_are_well_formed
            (parse_as (Some [rj840; rj84])) CEST (Resolved some_auth) lookups_ex
            [2; 0; 1]%nat "RJ 84" stationIds_ex cps_ex 1%nat).
  - vm_compute. reflexivity.
  - reflexivity.
Defined.

Lemma mapM_empty_slot {A : Type} (values : list (option A)) (i : nat) :
  values !! i = Some None -> mapM id values = None.
Proof.
  intros H. destruct (mapM id values) as [vs|] eqn:M; [|reflexivity].
  apply mapM_Some in M.
  destruct (Forall2_lookup_l _ _ _ _ _ M H) as (y & _ & Hy). discriminate.
Qed.

Lemma settleAll_pending {A : Type} (vs : list A) (i : nat) (order : list nat) :
  forall (values : list (option A)) (remaining : nat),
    values !! i = Some None -> i ∉ order ->
    settleAll (Resolved <$> vs) order values remaining = None.
Proof.
  induction order as [|j rest IH]; intros values remaining Hi Hn; simpl.
  - reflexivity.
  - apply not_elem_of_cons in Hn as [Hij Hn].
    rewrite list_lookup_fmap. destruct (vs !! j) as [v|]; simpl.
    + assert (Hi' : <[j:=Some v]> values !! i = Some None)
        by (rewrite list_lookup_insert_ne by congruence; exact Hi).
      destruct remaining as [|[|n]].
      * now apply IH.
      * now rewrite (mapM_empty_slot _ i Hi').
      * now apply IH.
    + now apply IH.
Qed.

(** X10.  A track call does not settle before every station lookup has
    settled: as long as the lookup of one station is outstanding, there
    is no result, not even a partial one. *)
Theorem track_waits_for_every_station
    (JSON_parse : string -> option Payload) (tza : TimeZone) (a : Auth)
    (lookups : nat -> Lookup) (order : list nat)
    (trainName : string) (stationIds : list string) (i : nat) :
  (i < length stationIds)%nat -> i ∉ order ->
  trackTrainJourney JSON_parse tza (Resolved a) lookups order trainName stationIds
    = None.
Proof.
  intros Hi Hn. unfold trackTrainJourney.
  destruct (all_fulfilled
    (imap (fun i sid => stationPromise JSON_parse tza trainName sid (lookups i))
          stationIds)) as [cps E].
  - intros p Hp. apply list_elem_of_lookup in Hp as [j Hj].
    apply list_lookup_imap_Some in Hj as (sid & _ & ->).
    destruct (stationPromise_fulfilled JSON_parse tza trainName sid (lookups j))
      as (c & -> & _).
    now exists c.
  - rewrite E. unfold Promise_all.
    assert (L : length cps = length stationIds).
    { rewrite <- (length_fmap Resolved cps), <- E. apply length_imap. }
    destruct cps as [|c cps']; [simpl in L; lia|].
    change (Resolved <$> c :: cps') with (Resolved c :: (Resolved <$> cps')).
    cbv beta iota.
    change (Resolved c :: (Resolved <$> cps')) with (Resolved <$> c :: cps').
    apply settleAll_pending with (i := i); [|exact Hn].
    apply lookup_replicate_2. rewrite length_fmap. lia.
Qed.

Lemma track_waits_for_every_station_witness :
  (1 < length stationIds_ex)%nat /\ (1%nat ∉ [2; 0]%nat)
  /\ trackTrainJourney (parse_as (Some [rj840; rj84])) CEST (Resolved some_auth)
       lookups_ex [2; 0]%nat "RJ 84" stationIds_ex = None.
Proof.
  assert (L : (1 < length stationIds_ex)%nat) by (simpl; lia).
  assert (N : 1%nat ∉ [2; 0]%nat).
  { intros H. apply elem_of_cons in H as [H|H]; [discriminate|].
    apply elem_of_cons in H as [H|H]; [discriminate|].
    now apply not_elem_of_nil in H. }
  split; [exact L|]. split; [exact N|].
  exact (track_waits_for_every_station (parse_as (Some [rj840; rj84])) CEST
           some_auth lookups_ex [2; 0]%nat "RJ 84" stationIds_ex 1%nat L N).
Defined.

(** *** Status derivation, continued *)

Lemma actualInstant_None (tza : TimeZone) (s d : option Z) :
  s = None \/ d = None -> actualInstant tza s d = None.
Proof.
  intros [-> | ->]; [reflexivity|]. destruct s; reflexivity.
Qed.

(** X11.  A matched record whose time does not read as hour and minute,
    or whose non-empty delay field does not read as a number, is never
    reported departed, however late it is: its status is 'delayed' when
    the delay field is non-empty and 'scheduled' otherwise. *)
Theorem unreadable_schedule_never_departs
    (tza : TimeZone) (trainName sid : string) (now today : Z)
    (departures : list Departure) (t : Departure) (tm : string) :
  find (matchesTrack trainName) departures = Some t ->
  ti t = Some tm ->
  scheduledInstant tza today tm = None
  \/ (JS.truthy (rtField dlm t) = true
      /\ JS.parseInt (JS.tpl (rtField dlm t)) = None) ->
  exists c,
    checkStation tza trainName sid now today departures = Resolved c
    /\ found c = true /\ departed c = Some false
    /\ status c = Some (if JS.truthy (rtField dlm t) then "delayed"
                        else "scheduled").
Proof.
  intros F T H.
  destruct (checkStation_matched tza trainName sid now today _ _ _ F T)
    as (sd & ad & pf & ->).
  eexists. split; [reflexivity|]. cbn [found departed status].
  rewrite actualInstant_None.
  - cbn [JS.gt]. repeat split.
  - destruct H as [H|[H1 H2]]; [now left|right]. now rewrite H1.
Qed.

Lemma unreadable_schedule_never_departs_witness :
  find (matchesTrack "RJ 84") [rj84_no_colon] = Some rj84_no_colon
  /\ ti rj84_no_colon = Some "2110"
  /\ scheduledInstant CEST noon_7_May "2110" = None
  /\ exists c,
       checkStation CEST "RJ 84" "1290401" late_7_May noon_7_May
         [rj84_no_colon] = Resolved c
       /\ found c = true /\ departed c = Some false
       /\ status c = Some (if JS.truthy (rtField dlm rj84_no_colon)
                           then "delayed" else "scheduled").
Proof.
  repeat (split; [reflexivity|]).
  exact (unreadable_schedule_never_departs CEST "RJ 84" "1290401" late_7_May
           noon_7_May [rj84_no_colon] rj84_no_colon "2110" eq_refl eq_refl
           (or_introl eq_refl)).
Defined.

(** X12.  Departure is final: a station reported departed at one
    instant is reported departed at every later instant of the same
    local day, on the same board. *)
Theorem departed_stays_departed
    (tza : TimeZone) (trainName sid : string) (now1 today1 now2 today2 : Z)
    (departures : list Departure) :
  now1 <= now2 ->
  JSDate.Day (JSDate.LocalTime tza today2)
    = JSDate.Day (JSDate.LocalTime tza today1) ->
  statusOf (checkStation tza trainName sid now1 today1 departures)
    = Some "departed" ->
  statusOf (checkStation tza trainName sid now2 today2 departures)
    = Some "departed".
Proof.
  intros Hle Hday. unfold checkStation.
  destruct (find (matchesTrack trainName) departures) as [t|];
    [|discriminate].
  destruct (ti t) as [tm|]; [|discriminate].
  cbn [statusOf status]. rewrite (scheduledInstant_day _ _ _ tm Hday).
  destruct (actualInstant tza (scheduledInstant tza today1 tm)
              (if JS.truthy (rtField dlm t)
               then JS.parseInt (JS.tpl (rtField dlm t)) else Some 0))
    as [y|]; cbn [JS.gt].
  - destruct (y <? now1) eqn:L1.
    + apply Z.ltb_lt in L1.
      replace (y <? now2) with true by (symmetry; apply Z.ltb_lt; lia).
      reflexivity.
    + destruct (JS.truthy (rtField dlm t)); discriminate.
  - destruct (JS.truthy (rtField dlm t)); discriminate.
Qed.

Lemma departed_stays_departed_witness :
  noon_7_May <= late_7_May
  /\ JSDate.Day (JSDate.LocalTime CEST late_7_May)
     = JSDate.Day (JSDate.LocalTime CEST noon_7_May)
  /\ statusOf (checkStation CEST "RJ 84" "1290401" noon_7_May noon_7_May
                 [rj84_morning]) = Some "departed"
  /\ statusOf (checkStation CEST "RJ 84" "1290401" late_7_May late_7_May
                 [rj84_morning]) = Some "departed".
Proof.
  assert (L : noon_7_May <= late_7_May) by (vm_compute; discriminate).
  assert (E : JSDate.Day (JSDate.LocalTime CEST late_7_May)
              = JSDate.Day (JSDate.LocalTime CEST noon_7_May))
    by (vm_compute; reflexivity).
  assert (D : statusOf (checkStation CEST "RJ 84" "1290401" noon_7_May
                          noon_7_May [rj84_morning]) = Some "departed")
    by (vm_compute; reflexivity).
  split; [exact L|]. split; [exact E|]. split; [exact D|].
  exact (departed_stays_departed CEST "RJ 84" "1290401" noon_7_May noon_7_May
           late_7_May late_7_May [rj84_morning] L E D).
Defined.

(** X13.  With a readable time and delay, and no clock change between
    the scheduled instant and the delayed wall-clock time, the status is
    'departed' exactly when [now] lies strictly behind the scheduled
    instant plus the delay minutes; at that very instant and before it,
    the status is 'delayed' or 'scheduled' according to the delay
    field.  The delay may be negative. *)
Theorem departure_threshold
    (tza : TimeZone) (trainName sid : string) (now today : Z)
    (departures : list Departure) (t : Departure) (tm : string) (sched d : Z) :
  find (matchesTrack trainName) departures = Some t ->
  ti t = Some tm ->
  scheduledInstant tza today tm = Some sched ->
  (if JS.truthy (rtField dlm t) then JS.parseInt (JS.tpl (rtField dlm t))
   else Some 0) = Some d ->
  steadyOffset tza sched d ->
  Z.abs (sched + d * 60000) <= 8640000000000000 ->
  (statusOf (checkStation tza trainName sid now today departures)
     = Some "departed" <-> sched + d * 60000 < now)
  /\ (now <= sched + d * 60000 ->
      statusOf (checkStation tza trainName sid now today departures)
      = Some (if JS.truthy (rtField dlm t) then "delayed" else "scheduled")).
Proof.
  intros F T S D St R.
  destruct (checkStation_matched tza trainName sid now today _ _ _ F T)
    as (sd & ad & pf & ->).
  cbn [statusOf status]. rewrite D, S, (actualInstant_adds_minutes _ _ _ St).
  rewrite (TimeClip_in_range _ R). cbn [JS.gt].
  destruct (Z.ltb_spec (sched + d * 60000) now) as [L|L].
  - split; [split; [intros _; exact L|reflexivity]|]. lia.
  - split; [|reflexivity]. split; [|lia].
    destruct (JS.truthy (rtField dlm t)); discriminate.
Qed.

Lemma departure_threshold_witness :
  find (matchesTrack "RJ 84") [rj84_early] = Some rj84_early
  /\ scheduledInstant CEST noon_7_May "21:10" = Some sched_2110
  /\ (statusOf (checkStation CEST "RJ 84" "1290401" (sched_2110 - 120000)
                  noon_7_May [rj84_early]) = Some "departed"
      <-> sched_2110 + -2 * 60000 < sched_2110 - 120000)
  /\ (sched_2110 - 120000 <= sched_2110 + -2 * 60000 ->
      statusOf (checkStation CEST "RJ 84" "1290401" (sched_2110 - 120000)
                  noon_7_May [rj84_early])
      = Some (if JS.truthy (rtField dlm rj84_early) then "delayed"
              else "scheduled")).
Proof.
  split; [reflexivity|]. split; [vm_compute; reflexivity|].
  apply (departure_threshold CEST "RJ 84" "1290401" (sched_2110 - 120000)
           noon_7_May [rj84_early] rj84_early "21:10" sched_2110 (-2)).
  - reflexivity.
  - reflexivity.
  - vm_compute. reflexivity.
  - reflexivity.
  - reflexivity.
  - vm_compute. discriminate.
Defined.

(** X14.  A matched record that carries no time makes the lookup of its
    station end in an error checkpoint ([found: false], with the
    message of the TypeError), not in a not-found checkpoint, while the
    delay check of the same board resolves. *)
Theorem matched_record_without_time
    (JSON_parse : string -> option Payload) (tza : TimeZone) (a : Auth)
    (l : Lookup) (departures : list Departure) (t : Departure)
    (trainName sid : string) :
  getBoardData JSON_parse (reply l) = Resolved (JList departures) ->
  find (matchesTrack trainName) departures = Some t ->
  ti t = None ->
  stationPromise JSON_parse tza trainName sid l
    = Resolved (Failed sid
        "Cannot read properties of undefined (reading 'split')")
  /\ checkTrainDelay JSON_parse (Resolved a) (reply l) sid trainName
     = Resolved (delayInfo t)
  /\ di_scheduledDeparture (delayInfo t)
     = JS.orElse (da t) EmptyString ++ " ".
Proof.
  intros G F T. unfold stationPromise, checkTrainDelay, checkStation.
  cbn [then_]. rewrite G. cbn [then_ findOn]. rewrite matchesDelay_ext.
  change (find (anyClause trainName) departures)
    with (find (matchesTrack trainName) departures).
  rewrite F, T. repeat split.
  unfold delayInfo. cbn [di_scheduledDeparture]. now rewrite T.
Qed.

Lemma matched_record_without_time_witness :
  getBoardData (parse_as (Some [rj84_no_time])) ok_reply
    = Resolved (JList [rj84_no_time])
  /\ stationPromise (parse_as (Some [rj84_no_time])) CEST "RJ 84" "1290401"
       {| reply := ok_reply; now := noon_7_May; today := noon_7_May |}
     = Resolved (Failed "1290401"
         "Cannot read properties of undefined (reading 'split')")
  /\ checkTrainDelay (parse_as (Some [rj84_no_time])) (Resolved some_auth)
       ok_reply "1290401" "RJ 84" = Resolved (delayInfo rj84_no_time)
  /\ di_scheduledDeparture (delayInfo rj84_no_time)
     = JS.orElse (da rj84_no_time) EmptyString ++ " ".
Proof.
  split; [reflexivity|].
  exact (matched_record_without_time (parse_as (Some [rj84_no_time])) CEST
           some_auth
           {| reply := ok_reply; now := noon_7_May; today := noon_7_May |}
           [rj84_no_time] rj84_no_time "RJ 84" "1290401"
           eq_refl eq_refl eq_refl).
Defined.

(** *** [getBoardData], continued *)

Lemma below_cases (bound : nat) (P : Z -> Prop) :
  (forall k : nat, (k < bound)%nat -> P (Z.of_nat k)) ->
  forall n, 0 <= n < Z.of_nat bound -> P n.
Proof.
  intros H n Hn. rewrite <- (Z2Nat.id n) by lia. apply H. lia.
Qed.

Lemma pad2_hours (h : Z) :
  0 <= h < 24 ->
  JS.parseInt (pad2 h) = Some h
  /\ String.length (pad2 h) = 2%nat
  /\ forall rest, JS.split ":" (pad2 h ++ ":" ++ rest) = pad2 h :: JS.split ":" rest.
Proof.
  intros H. pattern h. apply (below_cases 24); [|exact H]. clear h H.
  intros k Hk.
  do 24 (destruct k as [|k];
         [repeat split; intros rest; cbn; now destruct (JS.split ":" rest)|]).
  lia.
Qed.

Lemma pad2_minutes (m : Z) :
  0 <= m < 60 ->
  JS.parseInt (pad2 m) = Some m
  /\ String.length (pad2 m) = 2%nat
  /\ JS.split ":" (pad2 m) = [pad2 m].
Proof.
  intros H. pattern m. apply (below_cases 60); [|exact H]. clear m H.
  intros k Hk.
  do 60 (destruct k as [|k]; [repeat split|]).
  lia.
Qed.

Lemma string_length_app (a b : string) :
  String.length (a ++ b) = (String.length a + String.length b)%nat.
Proof. induction a as [|c a IH]; simpl; [reflexivity|now rewrite IH]. Qed.

(** X15.  The [time] parameter of a board request has the five
    characters HH:MM.  Read back the way [trackTrainJourney] reads a
    departure time, and provided the wall-clock minute of the request is
    read with the offset in force at the request (it is not a minute
    that a clock change repeats), it names the minute of the request:
    the instant of the request with seconds and milliseconds dropped. *)
Theorem request_time_round_trip (tza : TimeZone) (date : Z) :
  let lt := JSDate.LocalTime tza date in
  offset tza (lt - lt mod 60000) false = offset tza date true ->
  Z.abs date + 60000 <= 8640000000000000 ->
  String.length (formattedTime tza date) = 5%nat
  /\ scheduledInstant tza date (formattedTime tza date)
     = Some (date - lt mod 60000).
Proof.
  intros lt O R. unfold formattedTime. fold lt.
  fold (pad2 (JSDate.HourFromTime lt)). fold (pad2 (JSDate.MinFromTime lt)).
  assert (Hh : 0 <= JSDate.HourFromTime lt < 24)
    by (unfold JSDate.HourFromTime; apply Z.mod_pos_bound; lia).
  assert (Hm : 0 <= JSDate.MinFromTime lt < 60)
    by (unfold JSDate.MinFromTime; apply Z.mod_pos_bound; lia).
  destruct (pad2_hours _ Hh) as (Ph & Lh & Sh).
  destruct (pad2_minutes _ Hm) as (Pm & Lm & Sm).
  split.
  - rewrite string_length_app, Lh. cbn [append String.length]. now rewrite Lm.
  - rewrite scheduledInstant_spec, Sh, Sm.
    cbn [lookup list_lookup JS.tpl]. rewrite Ph, Pm.
    assert (E : wallClockToday tza date (JSDate.HourFromTime lt)
                  (JSDate.MinFromTime lt) = lt - lt mod 60000).
    { unfold wallClockToday. fold lt.
      unfold JSDate.Day, JSDate.HourFromTime, JSDate.MinFromTime,
        JSDate.msPerDay, JSDate.msPerHour, JSDate.msPerMinute.
      Z.div_mod_to_equations. lia. }
    rewrite E, O.
    replace (lt - lt mod 60000 - offset tza date true)
      with (date - lt mod 60000) by (subst lt; unfold JSDate.LocalTime; lia).
    apply TimeClip_in_range.
    pose proof (Z.mod_pos_bound lt 60000 ltac:(lia)). lia.
Qed.

Lemma request_time_round_trip_witness :
  Z.abs late_7_May + 60000 <= 8640000000000000
  /\ String.length (formattedTime CEST late_7_May) = 5%nat
  /\ scheduledInstant CEST late_7_May (formattedTime CEST late_7_May)
     = Some (late_7_May - JSDate.LocalTime CEST late_7_May mod 60000).
Proof.
  assert (R : Z.abs late_7_May + 60000 <= 8640000000000000)
    by (vm_compute; discriminate).
  split; [exact R|].
  exact (request_time_round_trip CEST late_7_May eq_refl R).
Defined.

Lemma string_app_assoc (a b c : string) : (a ++ b) ++ c = a ++ b ++ c.
Proof. induction a as [|x a IH]; simpl; [reflexivity|now rewrite IH]. Qed.

(** X16.  The text handed to [JSON.parse] begins with an opening brace,
    ends with a closing brace and reaches to the last closing brace of
    the whole payload: nothing behind it in the payload carries a
    closing brace. *)
Theorem extraction_reaches_last_brace (payload json : string) :
  matchJourneysObj payload = Some json ->
  exists pre mid post,
    payload = pre ++ json ++ post
    /\ json = "{" ++ mid ++ "}"
    /\ hasClosingBrace post = false.
Proof.
  intros M.
  destruct (matchJourneysObj_sound _ _ M)
    as (pre & w1 & w2 & mid & post & _ & _ & B & -> & ->).
  exists (pre ++ "journeysObj" ++ w1 ++ "=" ++ w2), mid, post.
  repeat split; [|exact B].
  repeat first [rewrite string_app_assoc | progress cbn [append]].
  reflexivity.
Qed.

Lemma extraction_reaches_last_brace_witness :
  matchJourneysObj "journeysObj = {a}; x = {b};" = Some "{a}; x = {b}"
  /\ exists pre mid post,
       "journeysObj = {a}; x = {b};" = pre ++ "{a}; x = {b}" ++ post
       /\ "{a}; x = {b}" = "{" ++ mid ++ "}"
       /\ hasClosingBrace post = false.
Proof.
  split; [reflexivity|].
  exact (extraction_reaches_last_brace "journeysObj = {a}; x = {b};"
           "{a}; x = {b}" eq_refl).
Defined.

(** *** [authenticate] and the station search *)

(** X17.  [authenticate] resolves exactly when the request went through
    and the body carries a non-empty access token; the object it
    resolves with copies token, channel, session and support id, its
    token is never empty, and its cookie is always the fixed mock value,
    which is what the stations request sends as [ts-cookie]. *)
Theorem authenticate_outcomes (r : AuthReply) :
  (forall auth,
     authenticate r = Resolved auth <->
     ar_error r = None
     /\ exists b token,
          ar_body r = Some b /\ ab_accessToken b = Some token
          /\ token <> EmptyString
          /\ auth = {| accessToken := token; channel := ab_channel b;
                       sessionId := ab_sessionId b;
                       supportId := ab_supportId b;
                       cookie := "mock-cookie-value" |})
  /\ (forall auth,
        authenticate r = Resolved auth ->
        accessToken auth <> EmptyString
        /\ cookie auth = "mock-cookie-value"
        /\ head (stationsHeaders auth)
           = Some ("cookie", "ts-cookie=mock-cookie-value"))
  /\ (forall e, ar_error r = Some e -> authenticate r = Rejected e)
  /\ (ar_error r = None -> ar_body r = None ->
      authenticate r = Rejected (Error "No body in auth response")).
Proof.
  assert (Main : forall auth,
     authenticate r = Resolved auth <->
     ar_error r = None
     /\ exists b token,
          ar_body r = Some b /\ ab_accessToken b = Some token
          /\ token <> EmptyString
          /\ auth = {| accessToken := token; channel := ab_channel b;
                       sessionId := ab_sessionId b;
                       supportId := ab_supportId b;
                       cookie := "mock-cookie-value" |}).
  { intros auth. unfold authenticate.
    destruct (ar_error r) as [e|].
    { split; [discriminate|]. intros [[=] _]. }
    destruct (ar_body r) as [b|].
    2:{ split; [discriminate|]. intros [_ (b & t & [=] & _)]. }
    unfold JS.truthy. destruct (ab_accessToken b) as [token|] eqn:T.
    - cbn [JS.tpl]. destruct (String.eqb_spec token EmptyString) as [->|N];
        cbn [negb andb].
      + split; [discriminate|].
        intros [_ (b' & t & [= <-] & E & N & _)]. congruence.
      + split.
        * intros [= <-]. split; [reflexivity|]. now exists b, token.
        * intros [_ (b' & t & [= <-] & E & _ & ->)]. congruence.
    - cbn [andb]. split; [discriminate|].
      intros [_ (b' & t & [= <-] & E & _)]. congruence. }
  split; [exact Main|]. split; [|split].
  - intros auth H. apply Main in H as [_ (b & token & _ & _ & N & ->)].
    repeat split. exact N.
  - intros e H. unfold authenticate. now rewrite H.
  - intros H1 H2. unfold authenticate. now rewrite H1, H2.
Qed.

(** X18.  The station search resolves with the list of the upstream as
    it is, in its order and whatever its length, an empty list
    included, exactly when the request went through with a body; the
    displaying variant settles the same way and writes one line per
    station, in that order, behind a headline. *)
Theorem station_search_passes_list_through
    (a : Auth) (sr : StationsReply) (label : string) (count : Z) :
  (forall stations,
     searchStations (Resolved a) sr label count = Resolved stations <->
     sr_error sr = None /\ sr_body sr = Some stations)
  /\ (searchStations (Resolved a) sr label count
        = Rejected (Error "No body in stations response") <->
      sr_error sr = Some (Error "No body in stations response")
      \/ (sr_error sr = None /\ sr_body sr = None))
  /\ snd (searchAndDisplayStations (Resolved a) sr label)
     = searchStations (Resolved a) sr label 15
  /\ (forall stations,
        sr_error sr = None -> sr_body sr = Some stations ->
        exists headline,
          fst (searchAndDisplayStations (Resolved a) sr label)
          = Log headline :: map (fun s => Log (stationLine s)) stations)
  /\ (forall e,
        searchStations (Resolved a) sr label 15 = Rejected e ->
        fst (searchAndDisplayStations (Resolved a) sr label)
        = [LogError "Error searching for stations:" e]).
Proof.
  unfold searchAndDisplayStations, searchStations, getStations. cbn [then_].
  split; [|split; [|split; [|split]]].
  - intros stations.
    destruct (sr_error sr) as [e|]; [split; [discriminate|intros [[=] _]]|].
    destruct (sr_body sr) as [l|].
    + split; [intros [= <-]; now split|intros [_ [= <-]]; reflexivity].
    + split; [discriminate|intros [_ [=]]].
  - destruct (sr_error sr) as [e|].
    + split; [intros [= ->]; now left|].
      intros [[= ->]|[[=] _]]. reflexivity.
    + destruct (sr_body sr) as [l|].
      * split; [discriminate|]. intros [[=]|[_ [=]]].
      * split; [intros _; now right|reflexivity].
  - destruct (sr_error sr) as [e|]; [reflexivity|].
    destruct (sr_body sr) as [l|]; reflexivity.
  - intros stations E B. rewrite E, B. eexists. reflexivity.
  - intros e. destruct (sr_error sr) as [e'|].
    + intros [= <-]. reflexivity.
    + destruct (sr_body sr) as [l|]; [discriminate|].
      intros [= <-]. reflexivity.
Qed.

(** *** [demo.js], continued *)

Lemma split_not_nil (sep : ascii) (s : string) : JS.split sep s <> [].
Proof.
  destruct s as [|c r]; simpl; [discriminate|].
  destruct (Ascii.eqb c sep); [discriminate|].
  destruct (JS.split sep r); discriminate.
Qed.

Lemma join_cons_char (sep : string) (c : ascii) (h : string) (t : list string) :
  JS2.join sep (String c h :: t) = String c (JS2.join sep (h :: t)).
Proof. destruct t; reflexivity. Qed.

Lemma join_split (sep : ascii) (s : string) :
  JS2.join (String sep EmptyString) (JS.split sep s) = s.
Proof.
  induction s as [|c r IH]; [reflexivity|]. cbn [JS.split].
  destruct (Ascii.eqb_spec c sep) as [->|_].
  - destruct (JS.split sep r) as [|h t] eqn:E; [now apply split_not_nil in E|].
    change (JS2.join (String sep EmptyString) (EmptyString :: h :: t))
      with (String sep (JS2.join (String sep EmptyString) (h :: t))).
    now rewrite IH.
  - destruct (JS.split sep r) as [|h t] eqn:E; [now apply split_not_nil in E|].
    rewrite join_cons_char. now rewrite IH.
Qed.

Lemma split_length (sep : ascii) (s : string) :
  length (JS.split sep s) = S (countChar sep s).
Proof.
  induction s as [|c r IH]; [reflexivity|]. cbn [JS.split countChar].
  destruct (Ascii.eqb c sep).
  - cbn [length]. now rewrite IH.
  - destruct (JS.split sep r) as [|h t] eqn:E; [now apply split_not_nil in E|].
    exact IH.
Qed.

Lemma split_pieces (sep : ascii) (s : string) :
  forall x, In x (JS.split sep s) -> countChar sep x = 0%nat.
Proof.
  induction s as [|c r IH]; cbn [JS.split].
  - intros x [<-|[]]. reflexivity.
  - destruct (Ascii.eqb c sep) eqn:C.
    + intros x [<-|H]; [reflexivity|now apply IH].
    + destruct (JS.split sep r) as [|h t] eqn:E; [now apply split_not_nil in E|].
      intros x [<-|H].
      * cbn [countChar]. rewrite C. apply IH. now left.
      * apply IH. now right.
Qed.

(** X19.  The [track] command never stops for a missing train name: an
    absent or empty name is replaced by "Wien".  It stops exactly when
    the list of station ids is absent or empty, and otherwise tracks
    the pieces of that argument between its commas. *)
Theorem track_command_dispatch (argv : list string) :
  argv !! 2%nat = Some "track" ->
  demo argv <> ExitWith
    "Missing train number! Usage: node demo.js track [trainNumber] [stationId1,stationId2,...]"
  /\ (JS.truthy (argv !! 4%nat) = false ->
      demo argv = ExitWith
        "Missing station IDs! Usage: node demo.js track [trainNumber] [stationId1,stationId2,...]")
  /\ (JS.truthy (argv !! 4%nat) = true ->
      demo argv = RunTrack (JS.orElse (argv !! 3%nat) "Wien")
                           (JS.split "," (JS.tpl (argv !! 4%nat)))
      /\ (JS.truthy (argv !! 3%nat) = false ->
          JS.orElse (argv !! 3%nat) "Wien" = "Wien")).
Proof.
  intros H. unfold demo. rewrite H.
  change (JS.orElse (Some "track") "search") with "track".
  cbn [String.eqb Ascii.eqb Bool.eqb andb].
  assert (T : JS.truthy (Some (JS.orElse (argv !! 3%nat) "Wien")) = true).
  { unfold JS.orElse, JS.truthy. destruct (argv !! 3%nat) as [s|]; [|reflexivity].
    destruct (String.eqb_spec s EmptyString) as [->|N]; [reflexivity|].
    now destruct (String.eqb_spec s EmptyString). }
  rewrite T. cbn [negb].
  destruct (JS.truthy (argv !! 4%nat)) eqn:A; cbn [negb].
  - split; [discriminate|]. split; [discriminate|]. intros _.
    split; [reflexivity|]. intros N. unfold JS.orElse, JS.truthy in *.
    destruct (argv !! 3%nat) as [s|]; [|reflexivity].
    destruct (String.eqb_spec s EmptyString); [reflexivity|discriminate].
  - split; [discriminate|]. split; [reflexivity|discriminate].
Qed.

Lemma track_command_dispatch_witness :
  ["node"; "demo.js"; "track"; EmptyString; "1290401,8100008"] !! 2%nat
    = Some "track"
  /\ demo ["node"; "demo.js"; "track"; EmptyString; "1290401,8100008"]
     = RunTrack "Wien" ["1290401"; "8100008"].
Proof.
  split; [reflexivity|].
  exact (proj1 (proj2 (proj2 (track_command_dispatch
           ["node"; "demo.js"; "track"; EmptyString; "1290401,8100008"]
           eq_refl)) eq_refl)).
Defined.

(** X20.  The station ids the [track] command hands to
    [trackTrainJourney] are never an empty list: they are the pieces of
    the argument between its commas, one more than there are commas,
    none of them holds a comma (an empty piece is kept as an empty
    station id), and joined by commas they give the argument back. *)
Theorem track_station_ids (argv : list string) (label : string)
    (ids : list string) :
  demo argv = RunTrack label ids ->
  exists arg,
    argv !! 4%nat = Some arg
    /\ ids <> []
    /\ length ids = S (countChar "," arg)
    /\ (forall x, In x ids -> countChar "," x = 0%nat)
    /\ JS2.join "," ids = arg.
Proof.
  unfold demo.
  destruct (_ =? "search")%string; [discriminate|].
  destruct (_ =? "departures")%string; [discriminate|].
  destruct (_ =? "delay")%string.
  { destruct (negb _); discriminate. }
  destruct (_ =? "track")%string; [|discriminate].
  destruct (negb (JS.truthy (Some _))); [discriminate|].
  destruct (argv !! 4%nat) as [arg|]; [|discriminate].
  destruct (negb _); [discriminate|].
  intros [= _ <-]. exists arg. cbn [JS.tpl]. split; [reflexivity|].
  split; [apply split_not_nil|]. split; [apply split_length|].
  split; [apply split_pieces|apply join_split].
Qed.

Lemma track_station_ids_witness :
  demo ["node"; "demo.js"; "track"; "RJ 84"; "1290401,,8100013"]
    = RunTrack "RJ 84" ["1290401"; EmptyString; "8100013"]
  /\ exists arg,
       ["node"; "demo.js"; "track"; "RJ 84"; "1290401,,8100013"] !! 4%nat
         = Some arg
       /\ ["1290401"; EmptyString; "8100013"] <> []
       /\ length ["1290401"; EmptyString; "8100013"] = S (countChar "," arg)
       /\ (forall x, In x ["1290401"; EmptyString; "8100013"] ->
           countChar "," x = 0%nat)
       /\ JS2.join "," ["1290401"; EmptyString; "8100013"] = arg.
Proof.
  split; [reflexivity|].
  exact (track_station_ids
           ["node"; "demo.js"; "track"; "RJ 84"; "1290401,,8100013"]
           "RJ 84" ["1290401"; EmptyString; "8100013"] eq_refl).
Defined.

Lemma departureLine_parts (t : Departure) :
  exists pre post,
    departureLine t
    = pre ++ (if JS.truthy (rtField dlm t)
              then " (DELAYED by " ++ JS.tpl (rtField dlm t) ++ " min)"
              else " (on time)") ++ post.
Proof.
  exists ("- " ++ JS.orElse (pr t) "Unknown" ++ " to "
          ++ JS.orElse (lastStop t) "Unknown" ++ ": " ++ JS.tpl (ti t)),
         (" - Platform: " ++ JS.orElse (tr t) "N/A").
  unfold departureLine. cbv zeta.
  repeat first [rewrite string_app_assoc | progress cbn [append]].
  reflexivity.
Qed.

(** X21.  The [delay] command and the listing of the [departures]
    command agree in one direction only: whenever the delay command
    reports a delay, of a positive number of minutes, the listing marks
    the same record as delayed by its delay field; and whenever the
    listing marks a record as on time, the delay command reports no
    delay.  A record whose non-empty delay field reads as zero, as a
    negative number or as no number is marked delayed in the listing
    while the delay command reports no delay. *)
Theorem delay_command_and_listing (t : Departure) :
  (forall m, delayHeadline (delayInfo t) = IsDelayedBy m ->
     (exists n, m = Some n /\ 0 < n)
     /\ JS.includes (departureLine t)
          (" (DELAYED by " ++ JS.tpl (rtField dlm t) ++ " min)") = true)
  /\ (JS.truthy (rtField dlm t) = false ->
      JS.includes (departureLine t) " (on time)" = true
      /\ forall m, delayHeadline (delayInfo t) <> IsDelayedBy m)
  /\ (JS.truthy (rtField dlm t) = true ->
      (forall n, JS.parseInt (JS.tpl (rtField dlm t)) = Some n -> n <= 0) ->
      JS.includes (departureLine t)
        (" (DELAYED by " ++ JS.tpl (rtField dlm t) ++ " min)") = true
      /\ forall m, delayHeadline (delayInfo t) <> IsDelayedBy m).
Proof.
  destruct (departureLine_parts t) as (pre & post & L).
  split; [|split].
  - intros m H. unfold delayHeadline in H.
    destruct (canceled (delayInfo t)); [discriminate|].
    destruct (isDelayed (delayInfo t)) eqn:D; [|discriminate].
    injection H as <-. apply (proj1 (delayInfo_flags_aux t)) in D as (n & T & P & N). split.
    + exists n. split; [|exact N]. unfold delayInfo. cbn [di_delayMinutes].
      now rewrite T.
    + rewrite T in L. apply includes_spec. now exists pre, post.
  - intros T. split.
    + rewrite T in L. apply includes_spec. now exists pre, post.
    + intros m H. unfold delayHeadline in H.
      destruct (canceled (delayInfo t)); [discriminate|].
      destruct (isDelayed (delayInfo t)) eqn:D; [|discriminate].
      apply (proj1 (delayInfo_flags_aux t)) in D as (n & T' & _). congruence.
  - intros T N. split.
    + rewrite T in L. apply includes_spec. now exists pre, post.
    + intros m H. unfold delayHeadline in H.
      destruct (canceled (delayInfo t)); [discriminate|].
      destruct (isDelayed (delayInfo t)) eqn:D; [|discriminate].
      apply (proj1 (delayInfo_flags_aux t)) in D as (n & _ & P & Hn). apply N in P. lia.
Qed.

Lemma inferJourney_find (results : list Checkpoint) :
  inferJourney results
  = (marker <$> find isDeparted (rev results),
     marker <$> find isUpcoming results).
Proof.
  unfold inferJourney. rewrite fold_visit.
  now destruct (find isDeparted (rev results)).
Qed.

Lemma isDeparted_status (c : Checkpoint) :
  isDeparted c = true <-> status c = Some "departed".
Proof.
  unfold isDeparted, statusIs. destruct (status c) as [s|].
  - rewrite String.eqb_eq. split; [now intros ->|now intros [= ->]].
  - split; discriminate.
Qed.

Lemma currentStatus_cases (results : list Checkpoint) :
  (forall c, In c results -> found c = true ->
     isDeparted c = true \/ isUpcoming c = true) ->
  (currentStatus results = Undetermined <->
     forall c, In c results -> found c = false)
  /\ ((exists l, currentStatus results = DepartedAll l) <->
        (exists c, In c results /\ found c = true)
        /\ forall c, In c results -> found c = true ->
             status c = Some "departed")
  /\ ((exists n, currentStatus results = NotYetDeparted n) <->
        (exists c, In c results /\ found c = true)
        /\ forall c, In c results -> found c = true ->
             status c <> Some "departed")
  /\ ((exists l n, currentStatus results = Between l n) <->
        (exists c, In c results /\ status c = Some "departed")
        /\ exists c, In c results /\ found c = true
             /\ status c <> Some "departed").
Proof.
  intros W. unfold currentStatus. rewrite inferJourney_find.
  assert (ND : forall c, isDeparted c = true -> isUpcoming c = true -> False).
  { intros c D U. rewrite (isDeparted_not_upcoming c D) in U. discriminate. }
  destruct (find isDeparted (rev results)) as [d|] eqn:FD;
    destruct (find isUpcoming results) as [u|] eqn:FU;
    cbn [fmap option_fmap option_map].
  all: try (apply find_some in FD as [InD Dd]; apply in_rev in InD).
  all: try (apply find_some in FU as [InU Uu]).
  all: try (assert (NoD : forall c, In c results -> isDeparted c = false)
              by (intros c Hc; apply (find_none _ _ FD); now apply in_rev in Hc)).
  all: try (assert (NoU : forall c, In c results -> isUpcoming c = false)
              by (intros c Hc; apply (find_none _ _ FU _ Hc))).
  - (* both *)
    split; [split; [discriminate|]|].
    { intros H. pose proof (H d InD) as F.
      rewrite (isDeparted_found d Dd) in F. discriminate. }
    split; [split; [intros [l [=]]|]|].
    { intros [_ H]. pose proof (H u InU (isUpcoming_found u Uu)) as S.
      apply isDeparted_status in S. elim (ND u S Uu). }
    split; [split; [intros [n [=]]|]|].
    { intros [_ H]. elim (H d InD (isDeparted_found d Dd)).
      now apply isDeparted_status. }
    split; [intros _|intros _; now eexists _, _].
    split.
    + exists d. split; [exact InD|now apply isDeparted_status].
    + exists u. split; [exact InU|]. split; [now apply isUpcoming_found|].
      intros H. apply isDeparted_status in H. elim (ND u H Uu).
  - (* departed only *)
    split; [split; [discriminate|]|].
    { intros H. pose proof (H d InD) as F.
      rewrite (isDeparted_found d Dd) in F. discriminate. }
    split; [split; [intros _|intros _; now eexists]|].
    { split; [exists d; split; [exact InD|now apply isDeparted_found]|].
      intros c Hc Fc. apply isDeparted_status.
      destruct (W c Hc Fc) as [D|U]; [exact D|].
      rewrite (NoU c Hc) in U. discriminate. }
    split; [split; [intros [n [=]]|]|].
    { intros [_ H]. elim (H d InD (isDeparted_found d Dd)).
      now apply isDeparted_status. }
    split; [intros (l & n & [=])|].
    intros [_ (c & Hc & Fc & N)]. destruct (W c Hc Fc) as [D|U].
    + elim N. now apply isDeparted_status.
    + rewrite (NoU c Hc) in U. discriminate.
  - (* upcoming only *)
    split; [split; [discriminate|]|].
    { intros H. pose proof (H u InU) as F.
      rewrite (isUpcoming_found u Uu) in F. discriminate. }
    split; [split; [intros [l [=]]|]|].
    { intros [_ H]. pose proof (H u InU (isUpcoming_found u Uu)) as S.
      apply isDeparted_status in S. elim (ND u S Uu). }
    split; [split; [intros _|intros _; now eexists]|].
    { split; [exists u; split; [exact InU|now apply isUpcoming_found]|].
      intros c Hc Fc H. apply isDeparted_status in H.
      rewrite (NoD c Hc) in H. discriminate. }
    split; [intros (l & n & [=])|].
    intros [(c & Hc & H) _]. apply isDeparted_status in H.
    rewrite (NoD c Hc) in H. discriminate.
  - (* neither *)
    split; [split; [intros _|reflexivity]|].
    { intros c Hc. destruct (found c) eqn:Fc; [|reflexivity].
      destruct (W c Hc Fc) as [D|U].
      - rewrite (NoD c Hc) in D. discriminate.
      - rewrite (NoU c Hc) in U. discriminate. }
    split; [split; [intros [l [=]]|]|].
    { intros [(c & Hc & Fc) _]. destruct (W c Hc Fc) as [D|U].
      - rewrite (NoD c Hc) in D. discriminate.
      - rewrite (NoU c Hc) in U. discriminate. }
    split; [split; [intros [n [=]]|]|].
    { intros [(c & Hc & Fc) _]. destruct (W c Hc Fc) as [D|U].
      - rewrite (NoD c Hc) in D. discriminate.
      - rewrite (NoU c Hc) in U. discriminate. }
    split; [intros (l & n & [=])|].
    intros [(c & Hc & H) _]. apply isDeparted_status in H.
    rewrite (NoD c Hc) in H. discriminate.
Qed.

(** X22.  What the [track] command reports for the checkpoints of a
    track call: "unable to determine" exactly when the train was found
    at no station; "departed from all checked stations" exactly when it
    was found somewhere and every station that found it reports it
    departed; "not yet departed" exactly when it was found somewhere and
    no station reports it departed; and "between" two stations exactly
    when some station reports it departed and another found it without
    that. *)
Theorem track_report_classification
    (JSON_parse : string -> option Payload) (tza : TimeZone) (auth : Promise Auth)
    (lookups : nat -> Lookup) (order : list nat)
    (trainName : string) (stationIds : list string)
    (cps : list Checkpoint) :
  trackTrainJourney JSON_parse tza auth lookups order trainName stationIds
    = Some (Resolved cps) ->
  (currentStatus cps = Undetermined <->
     forall c, In c cps -> found c = false)
  /\ ((exists l, currentStatus cps = DepartedAll l) <->
        (exists c, In c cps /\ found c = true)
        /\ forall c, In c cps -> found c = true -> status c = Some "departed")
  /\ ((exists n, currentStatus cps = NotYetDeparted n) <->
        (exists c, In c cps /\ found c = true)
        /\ forall c, In c cps -> found c = true -> status c <> Some "departed")
  /\ ((exists l n, currentStatus cps = Between l n) <->
        (exists c, In c cps /\ status c = Some "departed")
        /\ exists c, In c cps /\ found c = true
             /\ status c <> Some "departed").
Proof.
  intros H. apply currentStatus_cases. intros c Hc Fc.
  destruct (trackTrainJourney_element _ _ _ _ _ _ _ _ H) as [_ E].
  apply list_elem_of_In, list_elem_of_lookup in Hc as [i Hi].
  destruct (E i c Hi) as (sid & _ & Hp). unfold stationPromise in Hp.
  destruct (getBoardData JSON_parse (reply (lookups i)) >>= findOn)
    as [departures|e];
    cbn [then_ catch_] in Hp.
  - destruct (checkStation tza trainName sid (now (lookups i))
                (today (lookups i)) departures) as [c'|e] eqn:C;
      cbn [catch_] in Hp; injection Hp as <-; [|discriminate].
    destruct (checkStation_status _ _ _ _ _ _ _ C) as [[_ S]| ->];
      [|discriminate].
    unfold isDeparted, isUpcoming, statusIs.
    destruct S as [-> |[-> | ->]]; [right|right|left]; reflexivity.
  - injection Hp as <-. discriminate.
Qed.

Lemma track_report_classification_witness :
  trackTrainJourney (parse_as (Some [rj840; rj84])) CEST (Resolved some_auth)
    lookups_ex [2; 0; 1]%nat "RJ 84" stationIds_ex = Some (Resolved cps_ex)
  /\ (currentStatus cps_ex = Undetermined <->
      forall c, In c cps_ex -> found c = false).
Proof.
  assert (H : trackTrainJourney (parse_as (Some [rj840; rj84])) CEST
                (Resolved some_auth) lookups_ex [2; 0; 1]%nat "RJ 84"
                stationIds_ex = Some (Resolved cps_ex))
    by (vm_compute; reflexivity).
  split; [exact H|].
  exact (proj1 (track_report_classification (parse_as (Some [rj840; rj84]))
                  CEST (Resolved some_auth) lookups_ex [2; 0; 1]%nat "RJ 84"
                  stationIds_ex cps_ex H)).
Defined.

(** X23.  The result of a track call depends neither on the order in
    which the station lookups complete nor on anything but what each
    lookup observed at its own station: two runs whose lookups observe
    the same replies and clocks position by position resolve with the
    same list. *)
Theorem track_result_independent_of_completion_order
    (JSON_parse : string -> option Payload) (tza : TimeZone) (a : Auth)
    (lookups1 lookups2 : nat -> Lookup) (order1 order2 : list nat)
    (trainName : string) (stationIds : list string) :
  order1 ≡ₚ seq 0 (length stationIds) ->
  order2 ≡ₚ seq 0 (length stationIds) ->
  (forall i, (i < length stationIds)%nat -> lookups1 i = lookups2 i) ->
  trackTrainJourney JSON_parse tza (Resolved a) lookups1 order1 trainName stationIds
  = trackTrainJourney JSON_parse tza (Resolved a) lookups2 order2 trainName stationIds.
Proof.
  intros P1 P2 Hl.
  destruct (trackTrainJourney_resolves JSON_parse tza a lookups1 order1
              trainName stationIds P1) as (cps1 & -> & E1).
  destruct (trackTrainJourney_resolves JSON_parse tza a lookups2 order2
              trainName stationIds P2) as (cps2 & -> & E2).
  do 2 f_equal.
  assert (E : Resolved <$> cps1 = Resolved <$> cps2).
  { rewrite <- E1, <- E2. apply list_eq. intros i.
    rewrite !list_lookup_imap.
    destruct (stationIds !! i) as [sid|] eqn:Hi; [|reflexivity].
    cbn [fmap option_fmap option_map]. rewrite Hl; [reflexivity|].
    now apply lookup_lt_Some in Hi. }
  apply list_eq. intros i.
  assert (Ei : (Resolved <$> cps1) !! i = (Resolved <$> cps2) !! i)
    by now rewrite E.
  rewrite !list_lookup_fmap in Ei.
  destruct (cps1 !! i), (cps2 !! i); try discriminate; [|reflexivity].
  now injection Ei as ->.
Qed.

Lemma track_result_independent_of_completion_order_witness :
  [2; 0; 1]%nat ≡ₚ seq 0 (length stationIds_ex)
  /\ [1; 2; 0]%nat ≡ₚ seq 0 (length stationIds_ex)
  /\ trackTrainJourney (parse_as (Some [rj840; rj84])) CEST (Resolved some_auth)
       lookups_ex [2; 0; 1]%nat "RJ 84" stationIds_ex
     = trackTrainJourney (parse_as (Some [rj840; rj84])) CEST (Resolved some_auth)
         lookups_ex [1; 2; 0]%nat "RJ 84" stationIds_ex.
Proof.
  assert (P1 : [2; 0; 1]%nat ≡ₚ seq 0 (length stationIds_ex))
    by exact (Permutation_cons_append [0; 1]%nat 2%nat).
  assert (P2 : [1; 2; 0]%nat ≡ₚ seq 0 (length stationIds_ex))
    by exact (Permutation_sym (Permutation_cons_append [1; 2]%nat 0%nat)).
  split; [exact P1|]. split; [exact P2|].
  exact (track_result_independent_of_completion_order
           (parse_as (Some [rj840; rj84])) CEST some_auth lookups_ex lookups_ex
           [2; 0; 1]%nat [1; 2; 0]%nat "RJ 84" stationIds_ex P1 P2
           (fun i _ => eq_refl)).
Defined.

(** *** Clock changes *)

Lemma scheduled_instant_is_today_at_scheduledTime_witness :
  find (matchesTrack "RJ 84") [rj84] = Some rj84
  /\ wallClockToday CEST noon_7_May 21 10 - CEST = sched_2110
  /\ (statusOf (checkStation CEST "RJ 84" "1290401" noon_7_May noon_7_May
                  [rj84]) = Some "departed"
      <-> sched_2110 + 0 * 60000 < noon_7_May)
  /\ JSDate.LocalTime CEST sched_2110 = wallClockToday CEST noon_7_May 21 10.
Proof.
  split; [reflexivity|]. split; [vm_compute; reflexivity|].
  pose proof (scheduled_instant_is_today_at_scheduledTime CEST "RJ 84"
                "1290401" noon_7_May noon_7_May [rj84] rj84 "21:10" 21 10 0
                eq_refl eq_refl eq_refl eq_refl eq_refl eq_refl eq_refl
                ltac:(vm_compute; discriminate)
                ltac:(vm_compute; discriminate)) as H.
  cbv zeta in H. split; [exact (proj1 H)|exact (proj1 (proj2 H))].
Defined.

(** On the night the clocks are set back, the departure of 02:55 with
    ten minutes of delay is scheduled at the first 02:55 (00:55 UTC) and
    its actual instant is 03:05 after the change (02:05 UTC), seventy
    minutes later: fifteen minutes after the scheduled instant the
    status is still 'delayed'. *)
Example fall_back_night_ex :
  scheduledInstant Vienna2025 night_26_Oct "02:55"
    = Some (night_26_Oct + 145 * 60000)
  /\ actualInstant Vienna2025 (Some (night_26_Oct + 145 * 60000)) (Some 10)
     = Some (night_26_Oct + 145 * 60000 + 70 * 60000)
  /\ statusOf (checkStation Vienna2025 "RJ 84" "1290401"
                 (night_26_Oct + 145 * 60000 + 15 * 60000) night_26_Oct
                 [rj84_night]) = Some "delayed"
  /\ ~ steadyOffset Vienna2025 (night_26_Oct + 145 * 60000) 10.
Proof.
  repeat split; try (vm_compute; reflexivity).
  unfold steadyOffset. vm_compute. discriminate.
Qed.
